(** * PtTrainer: the distributed pre-training loop of GearNet-Reproduce

    A shallow embedding of [trainers/pt_trainer.py].  Python integers are
    [Z]; the side effects of a worker process (collective calls, optimizer
    calls, log lines, the checkpoint write, the final [sys.exit]) are
    recorded as a trace of [event]s; the attributes that the early-stopping
    helper keeps on its own function object and the checkpoint directory are
    threaded explicitly as a [world]. *)

From stdpp Require Import gmap strings list.
From Stdlib Require Import ZArith QArith Lia.

Local Open Scope Z_scope.

Inductive split := Train | Valid.

(** ** Scores and collaborators

    Losses and validation scores are Python floats; the trainer and the
    early-stopping helper only compare them, with [<] and [==].  No law is
    assumed of the two comparisons, so that a score which is not equal to
    itself (NaN) is covered. *)

Class ScoreOps := {
  score : Type;
  score_lt : score -> score -> bool;
  score_eq : score -> score -> bool
}.

(** The model, the optimizer, the metric object and the random number
    generator are external to the trainer; it only calls them.  They are
    gathered here as an interface. *)

Class Collaborators `{ScoreOps} := {
  (** [len(PtDataset(split=...))] *)
  dataset_len : split -> nat;
  (** parameters, gradients and optimizer state of one replica *)
  tstate : Type;
  tensor : Type;
  optim_dict : Type;
  (** [models.build_model(args)] followed by [get_optimizer(args, model)] *)
  build_model : Z -> tstate;
  (** [model(graph, rank)] followed by [metric_logger.return_loss] *)
  forward_loss : tstate -> list nat -> score;
  (** [loss.backward()], inside or outside the [no_sync] scope *)
  backward : bool -> list nat -> tstate -> tstate;
  optimizer_step : tstate -> tstate;
  zero_grad : tstate -> tstate;
  (** [state_dict()] of the bare module and of the optimizer *)
  module_state_dict : tstate -> list (string * tensor);
  optimizer_state_dict : tstate -> optim_dict;
  (** [all_gather_stats] followed by [return_log_dict_for_ddp]: the single
      statistic computed from the loss sequences of all the workers *)
  reduce_global : list (list score) -> score;
  (** [torch.randperm(n, generator=g)] with [g] seeded by the first argument *)
  randperm : Z -> nat -> list nat;
  randperm_perm : forall s n, randperm s n ≡ₚ seq 0 n;
  (** the file system of the worker: whether it refuses to create the
      directory at a path, and whether it refuses to write the file at a
      path (a missing parent directory, missing rights, a full disk) *)
  makedirs_refused : string -> bool;
  save_refused : string -> bool
}.

(** ** Configuration ([args]) *)

Record Args := {
  exp_name : string;
  save_dir : string;
  save_prefix : string;
  seed : Z;
  n_epochs : Z;
  train_bsz : Z;
  eval_bsz : Z;
  patience : Z;
  accumulation : Z;
  load_from_pretrained : bool;
  world_size_arg : Z
}.

(** The exceptions that leave [train]; [OSError] stands for the members
    of its family other than [FileNotFoundError]. *)
Inductive exn :=
| ZeroDivisionError
| ValueError
| NotImplementedError (msg : string)
| SystemExit (msg : string)
| FileNotFoundError
| OSError.

Inductive direction := Lower | Higher.

(** What [torch.save] receives: a dict with exactly these four keys. *)
Record checkpoint `{Collaborators} := {
  model_state_dict : list (string * tensor);
  optimizer_state_dict_f : optim_dict;
  epochs : Z;
  args_f : Args
}.

Inductive log_msg `{ScoreOps} :=
| LogMasterPort
| LogNumParams
| LogBeginEpoch (epoch rank : Z)
| LogTrainLoss (epoch : Z)
| LogBeginValidation (rank : Z)
| LogValidLoss (epoch : Z) (loss : score)
| LogSaving (path : string)
| LogSaved (path : string)
| LogNotImproved (epoch : Z) (prev : option score) (cur : score)
| LogDone.

Inductive event `{Collaborators} :=
| EvWandbInit
| EvWandbLog
| EvInitProcessGroup (rank world_size : Z)
| EvWrapDDP (rank : Z)
| EvLogInfo (m : log_msg)
| EvSetEpoch (epoch : Z)
| EvModelTrain
| EvModelEval
| EvEnterNoSync
| EvEnterNullContext
| EvExitContext
| EvForward
| EvBackward
| EvOptimizerStep
| EvZeroGrad
| EvMetricUpdate
| EvBarrier
| EvAllGather
| EvMakedirs (path : string)
| EvShouldStopEarly (patience : Z) (valid_loss : score) (d : direction)
| EvTorchSave (path : string) (c : checkpoint)
| EvDestroyProcessGroup
| EvSysExit (msg : string).

(** ** The training step (body of the inner loop of [train]) *)

Section Step.
Context {SO : ScoreOps} {CO : Collaborators}.

(** [self.model.no_sync if (idx + 1) % self.accumulation != 0 else nullcontext] *)
Definition defers_sync (K : Z) (idx : nat) : bool :=
  negb ((Z.of_nat idx + 1) mod K =? 0).

(** [if (idx+1) % self.accumulation == 0] *)
Definition applies_update (K : Z) (idx : nat) : bool :=
  (Z.of_nat idx + 1) mod K =? 0.

(** One iteration: the events, the new replica state and the loss on
    success; [%] by zero raises before the scope is entered. *)
Definition train_step (K : Z) (master debugger : bool)
    (idx : nat) (graph : list nat) (st : tstate)
  : list event * (exn + (tstate * score)) :=
  if K =? 0 then ([], inl ZeroDivisionError)
  else
    let loss := forward_loss st graph in
    let st1 := backward (defers_sync K idx) graph st in
    let st2 := if applies_update K idx then zero_grad (optimizer_step st1) else st1 in
    ([if defers_sync K idx then EvEnterNoSync else EvEnterNullContext; EvForward]
       ++ (if master && negb debugger then [EvWandbLog] else [])
       ++ [EvBackward]
       ++ (if applies_update K idx then [EvOptimizerStep; EvZeroGrad] else [])
       ++ [EvExitContext; EvMetricUpdate],
     inr (st2, loss)).
End Step.

(** ** Sharding and batching (PyTorch's [DistributedSampler] and [DataLoader]) *)

(** [math.ceil(a / b)] for an integer [a] and a positive integer [b]. *)
Definition ceil_div (a b : Z) : Z := - ((- a) / b).

(** [l[start:stop:step]] for non-negative bounds and a positive step: the
    elements at [start], [start + step], ... below [min stop (len l)]. *)
Definition py_slice {A} (l : list A) (start stop step : nat) : list A :=
  let stop' := Nat.min stop (length l) in
  let n := if (start <? stop')%nat then ((stop' - start - 1) / step + 1)%nat else 0%nat in
  omap (fun k => l !! (start + k * step)%nat) (seq 0 n).

Record DistributedSampler := {
  ds_len : nat;
  num_replicas : Z;
  ds_rank : Z;
  ds_epoch : Z;
  ds_seed : Z;
  ds_drop_last : bool
}.

Definition num_samples (s : DistributedSampler) : Z :=
  if ds_drop_last s && negb (Z.of_nat (ds_len s) mod num_replicas s =? 0)
  then ceil_div (Z.of_nat (ds_len s) - num_replicas s) (num_replicas s)
  else ceil_div (Z.of_nat (ds_len s)) (num_replicas s).

Definition total_size (s : DistributedSampler) : Z :=
  num_samples s * num_replicas s.

(** The constructor rejects a rank outside [0, num_replicas). *)
Definition new_sampler (len : nat) (rank world_size sd : Z) (drop_last : bool)
  : exn + DistributedSampler :=
  if (world_size <=? rank) || (rank <? 0) then inl ValueError
  else inr {| ds_len := len; num_replicas := world_size; ds_rank := rank;
              ds_epoch := 0; ds_seed := sd; ds_drop_last := drop_last |}.

Definition set_epoch (epoch : Z) (s : DistributedSampler) : DistributedSampler :=
  {| ds_len := ds_len s; num_replicas := num_replicas s; ds_rank := ds_rank s;
     ds_epoch := epoch; ds_seed := ds_seed s; ds_drop_last := ds_drop_last s |}.

(** The indices before the per-rank subsampling: the shuffled dataset,
    padded up to [total_size] or cut down to it. *)
Definition padded_indices `{Collaborators} (s : DistributedSampler) : list nat :=
  let indices := randperm (ds_seed s + ds_epoch s) (ds_len s) in
  if ds_drop_last s then take (Z.to_nat (total_size s)) indices
  else
    let padding_size := total_size s - Z.of_nat (length indices) in
    if padding_size <=? Z.of_nat (length indices)
    then indices ++ take (Z.to_nat padding_size) indices
    else indices ++
         take (Z.to_nat padding_size)
              (mjoin (replicate (Z.to_nat (ceil_div padding_size (Z.of_nat (length indices))))
                                indices)).

(** [Generator.manual_seed(s)]: a generator takes the seeds of the signed
    and of the unsigned 64-bit range and raises on any other integer. *)
Definition seed_ok (s : Z) : bool :=
  (- 2 ^ 63 <=? s) && (s <=? 2 ^ 64 - 1).

(** [iter(sampler)]: this rank's shard for the sampler's current epoch,
    once the sampler's generator has taken the seed [seed + epoch]. *)
Definition sampler_iter `{Collaborators} (s : DistributedSampler) : list nat :=
  py_slice (padded_indices s) (Z.to_nat (ds_rank s)) (Z.to_nat (total_size s))
           (Z.to_nat (num_replicas s)).

Fixpoint batches_fuel {A} (fuel bsz : nat) (l : list A) : list (list A) :=
  match fuel with
  | O => []
  | S f =>
      match l with
      | [] => []
      | _ => take bsz l :: batches_fuel f bsz (drop bsz l)
      end
  end.

(** Consecutive batches of [bsz] items, the last one possibly shorter
    ([DataLoader]'s own [drop_last] is left at its default, false). *)
Definition batches {A} (bsz : nat) (l : list A) : list (list A) :=
  batches_fuel (length l) bsz l.

Record DataLoader := {
  dl_sampler : DistributedSampler;
  batch_size : Z
}.

(** [DataLoader(...)] refuses a batch size that is not positive. *)
Definition new_loader (s : DistributedSampler) (bsz : Z) : exn + DataLoader :=
  if bsz <=? 0 then inl ValueError
  else inr {| dl_sampler := s; batch_size := bsz |}.

(** The batches of this rank for the current epoch. *)
Definition loader_iter `{Collaborators} (dl : DataLoader) : list (list nat) :=
  batches (Z.to_nat (batch_size dl)) (sampler_iter (dl_sampler dl)).

(** [iter(loader)]: the sampler first seeds its generator with
    [self.seed + self.epoch], which raises outside the range of seeds. *)
Definition iter_loader `{Collaborators} (dl : DataLoader) : exn + list (list nat) :=
  if seed_ok (ds_seed (dl_sampler dl) + ds_epoch (dl_sampler dl))
  then inr (loader_iter dl)
  else inl ValueError.

Section Loaders.
Context {SO : ScoreOps} {CO : Collaborators}.

Definition drop_last (sp : split) : bool :=
  match sp with Train => true | Valid => false end.

Definition split_bsz (a : Args) (sp : split) : Z :=
  match sp with Train => train_bsz a | Valid => eval_bsz a end.

(** [get_dataloader(split, rank, world_size)]: the generator is seeded
    first ([self.gen.manual_seed(self.seed)]), then the sampler and the
    loader are built; each of the three may raise. *)
Definition get_dataloader (a : Args) (sp : split) (rank world_size : Z)
  : exn + (DistributedSampler * DataLoader) :=
  if negb (seed_ok (seed a)) then inl ValueError
  else
    match new_sampler (dataset_len sp) rank world_size (seed a) (drop_last sp) with
    | inl e => inl e
    | inr sampler =>
        match new_loader sampler (split_bsz a sp) with
        | inl e => inl e
        | inr loader => inr (sampler, loader)
        end
    end.
End Loaders.

(** ** Observations on traces *)

Section Observations.
Context {SO : ScoreOps} {CO : Collaborators}.

Definition is_no_sync (e : event) : bool :=
  match e with EvEnterNoSync => true | _ => false end.

Definition is_forward (e : event) : bool :=
  match e with EvForward => true | _ => false end.

Definition is_save (e : event) : bool :=
  match e with EvTorchSave _ _ => true | _ => false end.

Definition is_decision (e : event) : bool :=
  match e with EvShouldStopEarly _ _ _ => true | _ => false end.

Definition is_destroy (e : event) : bool :=
  match e with EvDestroyProcessGroup => true | _ => false end.


Definition count_events (p : event -> bool) (tr : list event) : nat :=
  length (filter (fun e => p e = true) tr).
End Observations.

(** ** Early stopping *)

(** The attributes [best] and [num_runs] that the helper stores on its own
    function object; they live as long as the worker process. *)
Record early_state `{ScoreOps} := {
  best : option score;
  num_runs : nat
}.

Definition early_init `{ScoreOps} : early_state :=
  {| best := None; num_runs := 0 |}.

(** The signature of [should_stop_early(patience, valid_loss, standard)]
    with its hidden state made explicit. *)
Definition stopper `{ScoreOps} : Type :=
  Z -> score -> direction -> early_state -> bool * early_state.

Definition is_better `{ScoreOps} (d : direction) (a b : score) : bool :=
  match d with
  | Lower => score_lt a b
  | Higher => score_lt b a
  end.

(** Modelled from the spec: [should_stop_early] of [utils/trainer_utils.py],
    which is imported by the trainer but is not among the sources.  The
    spec's coordinator: a score strictly better than the best seen, or the
    absence of a best, resets the patience counter and records the score;
    any other score increments the counter; the helper asks to stop when
    the counter exceeds the configured patience. *)
Definition should_stop_early `{ScoreOps} : stopper :=
  fun patience valid_loss d s =>
    let improved :=
      match best s with
      | None => true
      | Some b => is_better d valid_loss b
      end in
    let s' :=
      if improved then {| best := Some valid_loss; num_runs := 0 |}
      else {| best := best s; num_runs := S (num_runs s) |} in
    (patience <? Z.of_nat (num_runs s'), s').

(** ** Checkpoints *)

(** [s.startswith('/')] *)
Definition starts_with_sep (s : string) : bool :=
  match s with
  | String c _ => Ascii.eqb c (Ascii.ascii_of_nat 47)
  | EmptyString => false
  end.

(** [s.endswith('/')] *)
Fixpoint ends_with_sep (s : string) : bool :=
  match s with
  | EmptyString => false
  | String c EmptyString => Ascii.eqb c (Ascii.ascii_of_nat 47)
  | String _ t => ends_with_sep t
  end.

(** [os.path.join(a, b)] on a POSIX system. *)
Definition os_path_join (a b : string) : string :=
  if starts_with_sep b then b
  else if String.eqb a "" || ends_with_sep a then a +:+ b
  else a +:+ "/" +:+ b.

(** [os.path.join(self.save_dir, f'{self.args.exp_name}_{self.save_prefix}_best.pt')] *)
Definition checkpoint_path (a : Args) : string :=
  os_path_join (save_dir a) (exp_name a +:+ "_" +:+ save_prefix a +:+ "_best.pt").

Inductive wrapper_kind := Bare | DataParallelW | DistributedW.

(** The process-wide state outside the trainer object: the helper's
    attributes and the files under the checkpoint directory. *)
Record world `{Collaborators} := {
  early : early_state;
  files : gmap string checkpoint
}.

Record trainer `{Collaborators} := {
  t_args : Args;
  MASTER : bool;
  debugger : bool;
  model : tstate;
  wrapper : wrapper_kind;
  train_loader : DataLoader;
  valid_loader : DataLoader
}.

Section Validate.
Context {SO : ScoreOps} {CO : Collaborators}.

Definition ranks (world_size : Z) : list Z :=
  map Z.of_nat (seq 0 (Z.to_nat world_size)).

(** Modelled from the spec: [all_gather_list] of [utils/ddp_utils.py],
    which is not among the sources: every worker receives the values
    contributed by all the workers, in rank order.  [peers] gives what
    the other ranks contribute at this synchronization point. *)
Definition all_gather (rank world_size : Z) (own : list score)
    (peers : Z -> list score) : list (list score) :=
  map (fun r => if r =? rank then own else peers r) (ranks world_size).

(** [self.model.state_dict()] or, under [DataParallel],
    [self.model.module.state_dict()]; the distributed wrapper prefixes
    every key with [module.]. *)
Definition saved_state_dict (w : wrapper_kind) (st : tstate)
  : list (string * tensor) :=
  match w with
  | DataParallelW => module_state_dict st
  | Bare => module_state_dict st
  | DistributedW => map (fun kv => ("module." +:+ kv.1, kv.2)) (module_state_dict st)
  end.

(** The losses one worker computes over its validation shard. *)
Definition local_valid_losses (self : trainer) : list score :=
  map (forward_loss (model self)) (loader_iter (valid_loader self)).

(** [validate(epoch, valid_subsets, rank, world_size)] with the single
    subset ['valid']. *)
Definition validate (self : trainer) (epoch rank world_size : Z)
    (peers : Z -> list score) : list event * score :=
  let own := local_valid_losses self in
  let loss_list := all_gather rank world_size own peers in
  let valid_loss := reduce_global loss_list in
  ([EvModelEval; EvLogInfo (LogBeginValidation rank)]
     ++ flat_map (fun _ => [EvForward; EvMetricUpdate]) own
     ++ [EvBarrier; EvAllGather]
     ++ (if MASTER self
         then (if debugger self then [] else [EvWandbLog])
                ++ [EvLogInfo (LogValidLoss epoch valid_loss)]
         else []),
   valid_loss).

Definition make_checkpoint (self : trainer) (epoch : Z) : checkpoint :=
  {| model_state_dict := saved_state_dict (wrapper self) (model self);
     optimizer_state_dict_f := optimizer_state_dict (model self);
     epochs := epoch;
     args_f := t_args self |}.

(** [prev_best is None or prev_best == valid_loss] *)
Definition save_condition (prev_best : option score) (valid_loss : score) : bool :=
  match prev_best with
  | None => true
  | Some b => score_eq b valid_loss
  end.

(** The part of [validate_and_save] that follows the call of [validate]:
    the helper, the patience override, the barrier and the save. *)
Definition checkpoint_decision (helper : stopper) (self : trainer)
    (epoch : Z) (valid_loss : score) (w : world)
  : list event * world * bool :=
  let '(flag, early') := helper (patience (t_args self)) valid_loss Lower (early w) in
  let should_stop := false || flag in
  let prev_best := best early' in
  let should_stop := if patience (t_args self) =? 0 then false else should_stop in
  let path := checkpoint_path (t_args self) in
  let saves := MASTER self && save_condition prev_best valid_loss in
  let ev_save :=
    if MASTER self then
      if save_condition prev_best valid_loss
      then [EvLogInfo (LogSaving path);
            EvTorchSave path (make_checkpoint self epoch);
            EvLogInfo (LogSaved path)]
      else [EvLogInfo (LogNotImproved epoch prev_best valid_loss)]
    else [] in
  ([EvShouldStopEarly (patience (t_args self)) valid_loss Lower; EvBarrier] ++ ev_save,
   {| early := early';
      files := if saves then <[path := make_checkpoint self epoch]> (files w)
               else files w |},
   should_stop).

(** [validate_and_save(epoch, valid_subsets, rank, world_size)], for a
    call that returns: the directory is there or can be made, and the
    file, if one is written, can be written. *)
Definition validate_and_save (helper : stopper) (self : trainer)
    (epoch rank world_size : Z) (peers : Z -> list score) (w : world)
  : list event * world * bool :=
  let '(ev_validate, valid_loss) := validate self epoch rank world_size peers in
  let '(ev_decide, w', should_stop) :=
    checkpoint_decision helper self epoch valid_loss w in
  ([EvMakedirs (save_dir (t_args self))] ++ ev_validate ++ ev_decide, w', should_stop).

(** [os.makedirs(path, exist_ok=True)]: the empty path is refused on
    every file system. *)
Definition os_makedirs (path : string) : option exn :=
  if String.eqb path "" then Some FileNotFoundError
  else if makedirs_refused path then Some OSError
  else None.

(** [torch.save(obj, path)] opens the file for writing. *)
Definition torch_save (path : string) : option exn :=
  if save_refused path then Some OSError else None.

(** [validate_and_save] with the calls that may raise: [os.makedirs] on
    its first line, before anything is validated; the iteration over the
    validation loader, whose sampler seeds its generator; and
    [torch.save], after the decision, the barrier and the log line that
    announces the save, the file being left as it was.  A call in which
    none of them raises is the one of [validate_and_save]. *)
Definition validate_and_save_io (helper : stopper) (self : trainer)
    (epoch rank world_size : Z) (peers : Z -> list score) (w : world)
  : list event * world * (exn + bool) :=
  match os_makedirs (save_dir (t_args self)) with
  | Some e => ([EvMakedirs (save_dir (t_args self))], w, inl e)
  | None =>
      match iter_loader (valid_loader self) with
      | inl e =>
          ([EvMakedirs (save_dir (t_args self)); EvModelEval;
            EvLogInfo (LogBeginValidation rank)], w, inl e)
      | inr _ =>
          let '(ev_validate, valid_loss) :=
            validate self epoch rank world_size peers in
          let '(_, early') :=
            helper (patience (t_args self)) valid_loss Lower (early w) in
          let path := checkpoint_path (t_args self) in
          match (if MASTER self && save_condition (best early') valid_loss
                 then torch_save path else None) with
          | Some e =>
              ([EvMakedirs (save_dir (t_args self))] ++ ev_validate
                 ++ [EvShouldStopEarly (patience (t_args self)) valid_loss Lower;
                     EvBarrier; EvLogInfo (LogSaving path)],
               {| early := early'; files := files w |}, inl e)
          | None =>
              let '(ev, w', should_stop) :=
                validate_and_save helper self epoch rank world_size peers w in
              (ev, w', inr should_stop)
          end
      end
  end.

(** The score that [validate] hands to the decision. *)
Definition global_valid_loss (self : trainer) (rank world_size : Z)
    (peers : Z -> list score) : score :=
  reduce_global (all_gather rank world_size (local_valid_losses self) peers).

(** Successive epochs of the decision on given validation scores,
    starting at [epoch]: for each, whether a checkpoint was written and
    the returned [should_stop]. *)
Fixpoint decisions (helper : stopper) (self : trainer) (epoch : Z)
    (scores : list score) (w : world) : list (bool * bool) * world :=
  match scores with
  | [] => ([], w)
  | v :: rest =>
      let '(ev, w', stop) := checkpoint_decision helper self epoch v w in
      let saved := existsb is_save ev in
      let '(r, w'') := decisions helper self (epoch + 1) rest w' in
      ((saved, stop) :: r, w'')
  end.
End Validate.

(** ** The training loop *)

Section Train.
Context {SO : ScoreOps} {CO : Collaborators}.

(** [load_pretrained()]: raises and never returns. *)
Definition load_pretrained {A} : list event * (exn + A) :=
  ([], inl (NotImplementedError "Not yet")).

(** [for idx, graph in enumerate(self.train_loader)], from index [idx] on. *)
Fixpoint train_batches (K : Z) (master dbg : bool) (idx : nat)
    (loader : list (list nat)) (st : tstate) : list event * (exn + tstate) :=
  match loader with
  | [] => ([], inr st)
  | graph :: rest =>
      match train_step K master dbg idx graph st with
      | (ev, inl e) => (ev, inl e)
      | (ev, inr (st', _)) =>
          let '(ev', r) := train_batches K master dbg (S idx) rest st' in
          (ev ++ ev', r)
      end
  end.

(** [self.train_sampler.set_epoch(epoch)]: the sampler is the object the
    training loader iterates over, so the loader sees the new epoch. *)
Definition loader_set_epoch (epoch : Z) (dl : DataLoader) : DataLoader :=
  {| dl_sampler := set_epoch epoch (dl_sampler dl); batch_size := batch_size dl |}.

Definition with_model (self : trainer) (st : tstate) (dl : DataLoader) : trainer :=
  {| t_args := t_args self; MASTER := MASTER self; debugger := debugger self;
     model := st; wrapper := wrapper self;
     train_loader := dl; valid_loader := valid_loader self |}.

(** One pass of the body of [for epoch in range(...)] up to the [break]
    test; the boolean is [should_stop]. *)
Definition train_epoch (helper : stopper) (self : trainer)
    (epoch rank world_size : Z) (peers : Z -> list score) (w : world)
  : list event * world * (exn + (trainer * bool)) :=
  let dl := loader_set_epoch epoch (train_loader self) in
  let head := [EvLogInfo (LogBeginEpoch epoch rank); EvSetEpoch epoch; EvModelTrain] in
  match iter_loader dl with
  | inl e => (head, w, inl e)
  | inr loader =>
      match train_batches (accumulation (t_args self)) (MASTER self) (debugger self)
                          0 loader (model self) with
      | (ev, inl e) => (head ++ ev, w, inl e)
      | (ev, inr st) =>
          let self' := with_model self st dl in
          let sync := [EvBarrier; EvAllGather]
                        ++ (if MASTER self then [EvLogInfo (LogTrainLoss epoch)] else []) in
          match validate_and_save_io helper self' epoch rank world_size peers w with
          | (ev', w', inl e) => (head ++ ev ++ sync ++ ev', w', inl e)
          | (ev', w', inr should_stop) =>
              (head ++ ev ++ sync ++ ev', w', inr (self', should_stop))
          end
      end
  end.

(** [for epoch in range(self.start_epoch+1, self.n_epochs+1)], with the
    [break] on [should_stop or epoch == self.n_epochs]. *)
Fixpoint train_epochs (helper : stopper) (epochs : list Z) (self : trainer)
    (rank world_size : Z) (peers : Z -> Z -> list score) (w : world)
  : list event * world * option exn :=
  match epochs with
  | [] => ([], w, None)
  | epoch :: rest =>
      match train_epoch helper self epoch rank world_size (peers epoch) w with
      | (ev, w', inl e) => (ev, w', Some e)
      | (ev, w', inr (self', should_stop)) =>
          if should_stop || (epoch =? n_epochs (t_args self)) then (ev, w', None)
          else
            let '(ev', w'', r) :=
              train_epochs helper rest self' rank world_size peers w' in
            (ev ++ ev', w'', r)
      end
  end.

(** [range(a, b)] *)
Definition py_range (a b : Z) : list Z :=
  map (fun i => a + Z.of_nat i) (seq 0 (Z.to_nat (b - a))).

Definition start_epoch : Z := 0.

Definition exit_message : string :=
  "Deliberately ending system, because all the process is over.".

(** [define_dataloader(rank, world_size)] *)
Definition define_dataloader (a : Args) (rank world_size : Z)
  : exn + (DataLoader * DataLoader) :=
  match get_dataloader a Train rank world_size with
  | inl e => inl e
  | inr (_, tl) =>
      match get_dataloader a Valid rank world_size with
      | inl e => inl e
      | inr (_, vl) => inr (tl, vl)
      end
  end.

(** [train(rank, world_size)]: the trace of the worker, the world it
    leaves and the exception that ends it: [SystemExit] on completion, or
    what the loaders, the accumulation test, [os.makedirs] or [torch.save]
    raised. *)
Definition train (helper : stopper) (a : Args) (dbg : bool)
    (rank world_size : Z) (peers : Z -> Z -> list score) (w : world)
  : list event * world * exn :=
  let master := rank =? world_size - 1 in
  let st := build_model rank in
  (* the call of [load_pretrained] under [if self.load_from_pretrained]
     is commented out in the source *)
  let init :=
    (if master && negb dbg then [EvWandbInit] else [])
      ++ [EvLogInfo LogMasterPort; EvInitProcessGroup rank world_size; EvWrapDDP rank]
      ++ (if master then [EvLogInfo LogNumParams] else []) in
  match define_dataloader a rank world_size with
  | inl e => (init, w, e)
  | inr (tl, vl) =>
      let self := {| t_args := a; MASTER := master; debugger := dbg; model := st;
                     wrapper := DistributedW; train_loader := tl; valid_loader := vl |} in
      match train_epochs helper (py_range (start_epoch + 1) (n_epochs a + 1))
                         self rank world_size peers w with
      | (ev, w', Some e) => (init ++ ev, w', e)
      | (ev, w', None) =>
          (init ++ ev ++ [EvDestroyProcessGroup; EvLogInfo LogDone; EvSysExit exit_message],
           w', SystemExit exit_message)
      end
  end.
End Train.

(** ** A concrete setting: rational scores, a counter for a model *)

#[local] Instance Q_scores : ScoreOps := {|
  score := Q;
  score_lt a b := negb (Qle_bool b a);
  score_eq := Qeq_bool
|}.

Definition Qmean (ls : list (list Q)) : Q :=
  let all := concat ls in
  Qred (fold_right Qplus (0 # 1)%Q all / inject_Z (Z.of_nat (length all)))%Q.

(** Ten training items, seven validation items; the model is the number of
    updates applied so far; a batch's loss is [1 / (1 + updates)]; the file
    system refuses nothing. *)
#[local] Instance counting : Collaborators := {|
  dataset_len sp := match sp with Train => 10%nat | Valid => 7%nat end;
  tstate := nat;
  tensor := nat;
  optim_dict := nat;
  build_model _ := 0%nat;
  forward_loss st _ := (1 # Pos.of_succ_nat st)%Q;
  backward _ _ st := st;
  optimizer_step st := S st;
  zero_grad st := st;
  module_state_dict st := [("weight"%string, st)];
  optimizer_state_dict st := st;
  reduce_global := Qmean;
  randperm _ n := rev (seq 0 n);
  randperm_perm := fun _ n => Permutation_sym (Permutation_rev (seq 0 n));
  makedirs_refused _ := false;
  save_refused _ := false
|}.

Definition demo_args : Args := {|
  exp_name := "gearnet"; save_dir := "ckpt"; save_prefix := "pt";
  seed := 2022; n_epochs := 3; train_bsz := 2; eval_bsz := 2;
  patience := 2; accumulation := 4; load_from_pretrained := false;
  world_size_arg := 2
|}.

(** The same run, asked to resume from a checkpoint. *)
Definition resume_args : Args := {|
  exp_name := "gearnet"; save_dir := "ckpt"; save_prefix := "pt";
  seed := 2022; n_epochs := 3; train_bsz := 2; eval_bsz := 2;
  patience := 2; accumulation := 4; load_from_pretrained := true;
  world_size_arg := 2
|}.

(** The demo run under an experiment name that is an absolute path. *)
Definition slash_args : Args := {|
  exp_name := "/tmp/x/gear"; save_dir := "ckpt"; save_prefix := "pt";
  seed := 2022; n_epochs := 3; train_bsz := 2; eval_bsz := 2;
  patience := 2; accumulation := 4; load_from_pretrained := false;
  world_size_arg := 2
|}.

Definition empty_world `{Collaborators} : world :=
  {| early := early_init; files := ∅ |}.

(** ** Auxiliary definitions of the statements *)

Section Auxiliary.
Context {SO : ScoreOps} {CO : Collaborators}.

(** The trainer with another value of [args.patience]. *)
Definition with_patience (p : Z) (self : trainer) : trainer :=
  {| t_args :=
       {| exp_name := exp_name (t_args self); save_dir := save_dir (t_args self);
          save_prefix := save_prefix (t_args self); seed := seed (t_args self);
          n_epochs := n_epochs (t_args self); train_bsz := train_bsz (t_args self);
          eval_bsz := eval_bsz (t_args self); patience := p;
          accumulation := accumulation (t_args self);
          load_from_pretrained := load_from_pretrained (t_args self);
          world_size_arg := world_size_arg (t_args self) |};
     MASTER := MASTER self; debugger := debugger self; model := model self;
     wrapper := wrapper self; train_loader := train_loader self;
     valid_loader := valid_loader self |}.

(** What an event of the epoch loop may be, for a worker with
    configuration [a] and coordinator flag [master]: never the teardown
    nor the exit, and a save only on the coordinator, to the run's path,
    of a checkpoint that carries the configuration. *)
Definition loop_event_ok (a : Args) (master : bool) (e : event) : Prop :=
  match e with
  | EvDestroyProcessGroup | EvSysExit _ => False
  | EvTorchSave p c => master = true /\ p = checkpoint_path a /\ args_f c = a
  | _ => True
  end.

(** The end of a completed run: [cleanup()], the last log line, [sys.exit]. *)
Definition teardown : list event :=
  [EvDestroyProcessGroup; EvLogInfo LogDone; EvSysExit exit_message].

(** The exceptions that can leave the epoch loop. *)
Definition loop_error (e : exn) : Prop :=
  e = ZeroDivisionError \/ e = ValueError \/ e = FileNotFoundError \/ e = OSError.

(** The synchronization flag of each step of a trace, in order: false
    where the step enters [no_sync], true where it enters the default
    scope. *)
Definition sync_flags (tr : list event) : list bool :=
  omap (fun e => match e with
                 | EvEnterNoSync => Some false
                 | EvEnterNullContext => Some true
                 | _ => None
                 end) tr.

End Auxiliary.

(** ** Runs of the coordinator on given scores *)

(** What [decisions] observes, as a function of the helper's state alone. *)
Fixpoint summary `{ScoreOps} (p : Z) (master : bool) (scores : list score)
    (s : early_state) : list (bool * bool) :=
  match scores with
  | [] => []
  | v :: rest =>
      let r := should_stop_early p v Lower s in
      (master && save_condition (best r.2) v, if p =? 0 then false else r.1)
        :: summary p master rest r.2
  end.

(** The validation scores of the spec's example, as exact decimals. *)
Definition example_scores : list Q :=
  [(9 # 10)%Q; (8 # 10)%Q; (85 # 100)%Q; (86 # 100)%Q; (87 # 100)%Q].

(** A worker of a group of two, built on the counting collaborators; rank 1
    is the coordinator. *)
Definition demo_worker (rank : Z) : trainer :=
  {| t_args := demo_args; MASTER := rank =? 1; debugger := false;
     model := 0%nat; wrapper := DistributedW;
     train_loader :=
       {| dl_sampler := {| ds_len := 10; num_replicas := 2; ds_rank := rank;
                           ds_epoch := 0; ds_seed := 2022; ds_drop_last := true |};
          batch_size := 2 |};
     valid_loader :=
       {| dl_sampler := {| ds_len := 7; num_replicas := 2; ds_rank := rank;
                           ds_epoch := 0; ds_seed := 2022; ds_drop_last := false |};
          batch_size := 2 |} |}.

(** ** Projections of a trace *)

Section Projections.
Context {SO : ScoreOps} {CO : Collaborators}.

Definition is_optimizer_step (e : event) : bool :=
  match e with EvOptimizerStep => true | _ => false end.

Definition is_backward (e : event) : bool :=
  match e with EvBackward => true | _ => false end.

(** [dist.barrier()] and the all-gather of [get_logger_list]. *)
Definition is_sync_point (e : event) : bool :=
  match e with EvBarrier | EvAllGather => true | _ => false end.

(** Calls of the experiment tracker ([wandb]). *)
Definition is_tracker (e : event) : bool :=
  match e with EvWandbInit | EvWandbLog => true | _ => false end.

(** The log lines the source emits only under [self.MASTER] (or under
    [rank == world_size-1] in [set_device]). *)
Definition is_summary (e : event) : bool :=
  match e with
  | EvLogInfo LogNumParams | EvLogInfo (LogTrainLoss _)
  | EvLogInfo (LogValidLoss _ _) | EvLogInfo (LogSaving _)
  | EvLogInfo (LogSaved _) | EvLogInfo (LogNotImproved _ _ _) => true
  | _ => false
  end.

(** The writes of a trace, in order. *)
Definition saves_of (tr : list event) : list (string * checkpoint) :=
  omap (fun e => match e with EvTorchSave p c => Some (p, c) | _ => None end) tr.

(** The directory after a sequence of [torch.save] calls. *)
Definition replay_saves (ss : list (string * checkpoint))
    (fs : gmap string checkpoint) : gmap string checkpoint :=
  foldl (fun f pc => <[pc.1 := pc.2]> f) fs ss.

(** The epochs a worker begins ([set_epoch] is called once per epoch). *)
Definition epochs_run (tr : list event) : list Z :=
  omap (fun e => match e with EvSetEpoch k => Some k | _ => None end) tr.

(** The synchronization points of one epoch: after training, inside
    [validate], and before the save. *)
Definition epoch_sync_points : list event :=
  [EvBarrier; EvAllGather; EvBarrier; EvAllGather; EvBarrier].

(** What a worker may emit with coordinator flag [master], debugger flag
    [dbg], model wrapper [wr] and epochs between [lo] and [hi]. *)
Definition epoch_event_ok (master dbg : bool) (wr : wrapper_kind)
    (lo hi : Z) (e : event) : Prop :=
  match e with
  | EvWandbInit | EvWandbLog => master = true /\ dbg = false
  | EvLogInfo LogNumParams | EvLogInfo (LogTrainLoss _)
  | EvLogInfo (LogValidLoss _ _) | EvLogInfo (LogSaving _)
  | EvLogInfo (LogSaved _) | EvLogInfo (LogNotImproved _ _ _) => master = true
  | EvLogInfo (LogBeginEpoch k _) | EvSetEpoch k => lo <= k <= hi
  | EvTorchSave p c =>
      master = true /\ lo <= epochs c <= hi
      /\ exists st, model_state_dict c = saved_state_dict wr st
                    /\ optimizer_state_dict_f c = optimizer_state_dict st
  | _ => True
  end.
(** The events of the body of the inner loop. *)
Definition is_step_event (e : event) : bool :=
  match e with
  | EvEnterNoSync | EvEnterNullContext | EvExitContext | EvForward | EvBackward
  | EvOptimizerStep | EvZeroGrad | EvMetricUpdate | EvWandbLog => true
  | _ => false
  end.

(** The epochs the loop goes through when [should_stop] stays false: up
    to and including the first one equal to [n]. *)
Fixpoint until_break (n : Z) (epochs : list Z) : list Z :=
  match epochs with
  | [] => []
  | e :: rest => if e =? n then [e] else e :: until_break n rest
  end.
End Projections.

(** * Properties *)

(** Membership in an explicit trace. *)
Ltac in_trace :=
  rewrite ?elem_of_app, ?elem_of_cons, ?elem_of_nil in *; intuition congruence.

Ltac trace_cases :=
  rewrite ?elem_of_app, ?elem_of_cons, ?elem_of_nil;
  intuition (subst; cbn; auto; try congruence).

Section StepFacts.
Context {SO : ScoreOps} {CO : Collaborators}.

Lemma train_step_ok K master dbg idx g st :
  K <> 0 ->
  train_step K master dbg idx g st =
    ([if defers_sync K idx then EvEnterNoSync else EvEnterNullContext; EvForward]
       ++ (if master && negb dbg then [EvWandbLog] else [])
       ++ [EvBackward]
       ++ (if applies_update K idx then [EvOptimizerStep; EvZeroGrad] else [])
       ++ [EvExitContext; EvMetricUpdate],
     inr (if applies_update K idx
          then zero_grad (optimizer_step (backward (defers_sync K idx) g st))
          else backward (defers_sync K idx) g st,
          forward_loss st g)).
Proof.
  intros HK. unfold train_step.
  destruct (Z.eqb_spec K 0) as [->|_]; [contradiction|reflexivity].
Qed.

Lemma defers_sync_decide K idx :
  defers_sync K idx = bool_decide ((Z.of_nat idx + 1) mod K <> 0).
Proof.
  unfold defers_sync. destruct (Z.eqb_spec ((Z.of_nat idx + 1) mod K) 0) as [E|E].
  - rewrite bool_decide_eq_false_2; [reflexivity|]. intros Hne. exact (Hne E).
  - rewrite bool_decide_eq_true_2; [reflexivity|exact E].
Qed.

Lemma applies_update_decide K idx :
  applies_update K idx = bool_decide ((Z.of_nat idx + 1) mod K = 0).
Proof.
  unfold applies_update. destruct (Z.eqb_spec ((Z.of_nat idx + 1) mod K) 0) as [E|E].
  - rewrite bool_decide_eq_true_2; [reflexivity|exact E].
  - rewrite bool_decide_eq_false_2; [reflexivity|exact E].
Qed.

(** The loop from index [idx] on, step by step. *)
Lemma train_batches_run K master dbg loader :
  K <> 0 -> forall idx st,
    train_batches K master dbg idx loader st =
      (flat_map
         (fun i =>
            [if bool_decide ((Z.of_nat i + 1) mod K <> 0)
             then EvEnterNoSync else EvEnterNullContext; EvForward]
              ++ (if master && negb dbg then [EvWandbLog] else [])
              ++ [EvBackward]
              ++ (if bool_decide ((Z.of_nat i + 1) mod K = 0)
                  then [EvOptimizerStep; EvZeroGrad] else [])
              ++ [EvExitContext; EvMetricUpdate])
         (seq idx (length loader)),
       inr (fold_left
              (fun s ig =>
                 let s1 := backward (bool_decide ((Z.of_nat ig.1 + 1) mod K <> 0)) ig.2 s in
                 if bool_decide ((Z.of_nat ig.1 + 1) mod K = 0)
                 then zero_grad (optimizer_step s1) else s1)
              (combine (seq idx (length loader)) loader) st)).
Proof.
  intros HK. induction loader as [|g rest IH]; intros idx st; [reflexivity|].
  cbn [train_batches length seq flat_map combine fold_left].
  rewrite train_step_ok by assumption.
  rewrite defers_sync_decide, applies_update_decide, IH. reflexivity.
Qed.

Lemma train_batches_sync_flags K master dbg loader :
  K <> 0 -> forall idx st,
    sync_flags (train_batches K master dbg idx loader st).1
    = map (fun i => bool_decide ((Z.of_nat i + 1) mod K = 0)) (seq idx (length loader)).
Proof.
  intros HK idx st. rewrite train_batches_run by assumption. cbn [fst].
  induction (seq idx (length loader)) as [|i l IH]; [reflexivity|].
  cbn [flat_map map]. unfold sync_flags in *. rewrite omap_app, IH. f_equal.
  destruct (decide ((Z.of_nat i + 1) mod K = 0)) as [E|E].
  - rewrite (bool_decide_eq_true_2 _ E), bool_decide_eq_false_2 by (intros Hne; exact (Hne E)).
    destruct (master && negb dbg); reflexivity.
  - rewrite (bool_decide_eq_false_2 _ E), bool_decide_eq_true_2 by exact E.
    destruct (master && negb dbg); reflexivity.
Qed.

(** C1. For an accumulation factor [K >= 1], the loop over the batches of
    an epoch runs one step per batch, at the zero-based indices 0, 1, ...
    in order, and nothing else; the step of index [idx] enters the
    [no_sync] scope exactly when [(idx+1) mod K <> 0] and the default scope
    otherwise, runs its backward pass inside or outside that scope
    accordingly, and performs the optimizer update immediately followed by
    the gradient reset, right after the backward pass, exactly when
    [(idx+1) mod K = 0]; the replica leaves the loop in the state these
    calls produce.  For [K = 4] the loop over eight batches synchronizes
    as [F,F,F,T,F,F,F,T]. *)
Theorem accumulation_controller (K : Z) (master dbg : bool)
    (loader : list (list nat)) (st : tstate) :
  1 <= K ->
  let n := length loader in
  let defers := fun idx : nat => bool_decide ((Z.of_nat idx + 1) mod K <> 0) in
  let updates := fun idx : nat => bool_decide ((Z.of_nat idx + 1) mod K = 0) in
  let r := train_batches K master dbg 0 loader st in
  r.1 = flat_map
          (fun idx =>
             [if defers idx then EvEnterNoSync else EvEnterNullContext; EvForward]
               ++ (if master && negb dbg then [EvWandbLog] else [])
               ++ [EvBackward]
               ++ (if updates idx then [EvOptimizerStep; EvZeroGrad] else [])
               ++ [EvExitContext; EvMetricUpdate])
          (seq 0 n)
  /\ r.2 = inr (fold_left
                  (fun s ig =>
                     let s1 := backward (defers ig.1) ig.2 s in
                     if updates ig.1 then zero_grad (optimizer_step s1) else s1)
                  (combine (seq 0 n) loader) st)
  /\ sync_flags r.1 = map updates (seq 0 n)
  /\ (forall (loader8 : list (list nat)) (st8 : tstate),
         length loader8 = 8%nat ->
         sync_flags (train_batches 4 master dbg 0 loader8 st8).1
         = [false; false; false; true; false; false; false; true]).
Proof.
  intros HK n defers updates r. subst n defers updates r.
  split; [|split; [|split]].
  - rewrite train_batches_run by lia. reflexivity.
  - rewrite train_batches_run by lia. reflexivity.
  - apply train_batches_sync_flags. lia.
  - intros loader8 st8 Hlen.
    rewrite train_batches_sync_flags by lia. rewrite Hlen. reflexivity.
Qed.
End StepFacts.

Section DecisionFacts.
Context {SO : ScoreOps} {CO : Collaborators}.

(** The result of the decision, component by component. *)
Lemma checkpoint_decision_unfold helper self epoch v w :
  let r := helper (patience (t_args self)) v Lower (early w) in
  let saves := MASTER self && save_condition (best r.2) v in
  checkpoint_decision helper self epoch v w =
    ([EvShouldStopEarly (patience (t_args self)) v Lower; EvBarrier]
       ++ (if MASTER self then
             if save_condition (best r.2) v
             then [EvLogInfo (LogSaving (checkpoint_path (t_args self)));
                   EvTorchSave (checkpoint_path (t_args self)) (make_checkpoint self epoch);
                   EvLogInfo (LogSaved (checkpoint_path (t_args self)))]
             else [EvLogInfo (LogNotImproved epoch (best r.2) v)]
           else []),
     {| early := r.2;
        files := if saves
                 then <[checkpoint_path (t_args self) := make_checkpoint self epoch]> (files w)
                 else files w |},
     if patience (t_args self) =? 0 then false else r.1).
Proof.
  unfold checkpoint_decision.
  destruct (helper (patience (t_args self)) v Lower (early w)) as [flag e'].
  reflexivity.
Qed.

Lemma validate_and_save_unfold helper self epoch rank ws peers w :
  let v := global_valid_loss self rank ws peers in
  let d := checkpoint_decision helper self epoch v w in
  validate_and_save helper self epoch rank ws peers w =
    ([EvMakedirs (save_dir (t_args self))]
       ++ (validate self epoch rank ws peers).1 ++ d.1.1,
     d.1.2, d.2).
Proof.
  unfold validate_and_save, global_valid_loss, validate. cbn [fst snd].
  destruct (checkpoint_decision _ _ _ _ _) as [[ev w'] s]. reflexivity.
Qed.

Lemma validate_no_save self epoch rank ws peers e :
  e ∈ (validate self epoch rank ws peers).1 -> is_save e = false /\ is_decision e = false.
Proof.
  unfold validate. cbn [fst]. rewrite !elem_of_app.
  intros [Hin|[Hin|[Hin|Hin]]].
  - revert Hin. trace_cases.
  - apply list_elem_of_In, in_flat_map in Hin. destruct Hin as (x & _ & Hin).
    apply list_elem_of_In in Hin. revert Hin. trace_cases.
  - revert Hin. trace_cases.
  - destruct (MASTER self); [|revert Hin; trace_cases].
    destruct (debugger self); revert Hin; trace_cases.
Qed.

(** A save event of [validate_and_save] is the one of the decision. *)
Lemma validate_and_save_save helper self epoch rank ws peers w path c :
  EvTorchSave path c ∈ (validate_and_save helper self epoch rank ws peers w).1.1 ->
  EvTorchSave path c ∈
    (checkpoint_decision helper self epoch (global_valid_loss self rank ws peers) w).1.1.
Proof.
  rewrite validate_and_save_unfold. cbn [fst]. rewrite !elem_of_app.
  intros [Hin|[Hin|Hin]]; [revert Hin; in_trace| |exact Hin].
  apply validate_no_save in Hin. cbn in Hin. destruct Hin; discriminate.
Qed.

Lemma decision_save_inv helper self epoch v w path c :
  EvTorchSave path c ∈ (checkpoint_decision helper self epoch v w).1.1 ->
  MASTER self = true
  /\ save_condition (best (helper (patience (t_args self)) v Lower (early w)).2) v = true
  /\ path = checkpoint_path (t_args self)
  /\ c = make_checkpoint self epoch.
Proof.
  rewrite checkpoint_decision_unfold. cbn [fst].
  destruct (MASTER self); [|in_trace].
  destruct (save_condition _ v); [|in_trace].
  rewrite !elem_of_app, !elem_of_cons, elem_of_nil.
  intros [[?|[?|?]]|[?|[Hs|[?|?]]]]; try discriminate; try contradiction.
  injection Hs as -> ->. auto.
Qed.

Lemma iter_loader_inv (dl : DataLoader) :
  match iter_loader dl with
  | inl e => e = ValueError
  | inr loader => loader = loader_iter dl
  end.
Proof. unfold iter_loader. destruct (seed_ok _); reflexivity. Qed.

Lemma validate_and_save_io_unfold helper self epoch rank ws peers w :
  validate_and_save_io helper self epoch rank ws peers w =
    match os_makedirs (save_dir (t_args self)) with
    | Some e => ([EvMakedirs (save_dir (t_args self))], w, inl e)
    | None =>
        match iter_loader (valid_loader self) with
        | inl e =>
            ([EvMakedirs (save_dir (t_args self)); EvModelEval;
              EvLogInfo (LogBeginValidation rank)], w, inl e)
        | inr _ =>
            let v := global_valid_loss self rank ws peers in
            let r := helper (patience (t_args self)) v Lower (early w) in
            match (if MASTER self && save_condition (best r.2) v
                   then torch_save (checkpoint_path (t_args self)) else None) with
            | Some e =>
                ([EvMakedirs (save_dir (t_args self))]
                   ++ (validate self epoch rank ws peers).1
                   ++ [EvShouldStopEarly (patience (t_args self)) v Lower; EvBarrier;
                       EvLogInfo (LogSaving (checkpoint_path (t_args self)))],
                 {| early := r.2; files := files w |}, inl e)
            | None =>
                let vs := validate_and_save helper self epoch rank ws peers w in
                (vs.1.1, vs.1.2, inr vs.2)
            end
        end
    end.
Proof.
  unfold validate_and_save_io.
  destruct (os_makedirs (save_dir (t_args self))); [reflexivity|].
  destruct (iter_loader (valid_loader self)); [reflexivity|].
  assert (Hv : (validate self epoch rank ws peers).2 = global_valid_loss self rank ws peers)
    by reflexivity.
  destruct (validate self epoch rank ws peers) as [evv v]. cbn [fst snd] in *. subst v.
  cbn zeta.
  destruct (helper (patience (t_args self)) (global_valid_loss self rank ws peers)
                   Lower (early w)) as [flag e']. cbn [fst snd].
  destruct (if MASTER self && save_condition (best e') _ then _ else None);
    [reflexivity|].
  destruct (validate_and_save helper self epoch rank ws peers w) as [[ev w'] stop].
  reflexivity.
Qed.

(** A call that raises has emitted a prefix of what the returning call
    emits, has written nothing and has left the files as they were. *)
Lemma validate_and_save_io_spec helper self epoch rank ws peers w :
  let vs := validate_and_save helper self epoch rank ws peers w in
  let io := validate_and_save_io helper self epoch rank ws peers w in
  (exists rest, vs.1.1 = io.1.1 ++ rest)
  /\ match io.2 with
     | inr s => io.1.1 = vs.1.1 /\ io.1.2 = vs.1.2 /\ s = vs.2
     | inl e =>
         (e = FileNotFoundError \/ e = OSError \/ e = ValueError)
         /\ files io.1.2 = files w
         /\ Forall (fun ev => is_save ev = false) io.1.1
     end.
Proof.
  cbn zeta. rewrite validate_and_save_io_unfold.
  destruct (os_makedirs (save_dir (t_args self))) as [e|] eqn:Hmk.
  { cbn [fst snd]. split.
    - rewrite validate_and_save_unfold. cbn [fst]. eexists. reflexivity.
    - split; [|split; [reflexivity|repeat constructor]].
      unfold os_makedirs in Hmk.
      destruct (String.eqb (save_dir (t_args self)) "");
        [injection Hmk as <-; left; reflexivity|].
      destruct (makedirs_refused (save_dir (t_args self)));
        [injection Hmk as <-; right; left; reflexivity|discriminate]. }
  pose proof (iter_loader_inv (valid_loader self)) as Hit.
  destruct (iter_loader (valid_loader self)) as [e|loader].
  { cbn [fst snd]. split.
    - rewrite validate_and_save_unfold. unfold validate. cbn [fst].
      eexists. rewrite <- !app_assoc. reflexivity.
    - split; [auto|]. split; [reflexivity|repeat constructor]. }
  cbn zeta.
  destruct (MASTER self
            && save_condition
                 (best (helper (patience (t_args self))
                               (global_valid_loss self rank ws peers) Lower (early w)).2)
                 (global_valid_loss self rank ws peers)) eqn:Hsv.
  - unfold torch_save.
    destruct (save_refused (checkpoint_path (t_args self))); cbn [fst snd].
    + apply andb_true_iff in Hsv. destruct Hsv as [Hm Hc]. split.
      * rewrite validate_and_save_unfold, checkpoint_decision_unfold. cbn [fst].
        rewrite Hm, Hc.
        exists [EvTorchSave (checkpoint_path (t_args self)) (make_checkpoint self epoch);
                EvLogInfo (LogSaved (checkpoint_path (t_args self)))].
        rewrite <- !app_assoc. reflexivity.
      * split; [right; left; reflexivity|]. split; [reflexivity|].
        rewrite !Forall_app. split; [repeat constructor|].
        split; [|repeat constructor].
        apply Forall_forall. intros ev Hev. apply validate_no_save in Hev. tauto.
    + split; [exists []; rewrite app_nil_r; reflexivity|]. auto.
  - cbn [fst snd]. split; [exists []; rewrite app_nil_r; reflexivity|]. auto.
Qed.

(** C5. With patience configured as 0, [validate_and_save] returns
    [should_stop = False] whatever the early-stopping helper answers and
    whatever the history of scores (any state of the helper, any score
    sequence): every decision of an arbitrarily long run is "continue". *)
Theorem patience_zero_never_stops (helper : stopper) (self : trainer)
    (epoch rank ws : Z) (peers : Z -> list score) (scores : list score) (w : world) :
  patience (t_args self) = 0 ->
  (validate_and_save helper self epoch rank ws peers w).2 = false
  /\ Forall (fun r => r.2 = false) (decisions helper self epoch scores w).1.
Proof.
  intros Hp. split.
  - rewrite validate_and_save_unfold. cbn [snd].
    rewrite checkpoint_decision_unfold. cbn [snd]. rewrite Hp. reflexivity.
  - revert epoch w. induction scores as [|v rest IH]; intros epoch w; cbn [decisions].
    + constructor.
    + pose proof (checkpoint_decision_unfold helper self epoch v w) as Hd.
      cbn zeta in Hd. rewrite Hp in Hd. cbn [Z.eqb] in Hd.
      destruct (checkpoint_decision helper self epoch v w) as [[ev w'] stop].
      injection Hd as _ _ ->.
      specialize (IH (epoch + 1) w').
      destruct (decisions helper self (epoch + 1) rest w') as [r w''].
      cbn [fst] in *. constructor; [reflexivity|exact IH].
Qed.
End DecisionFacts.

Section TrainFacts.
Context {SO : ScoreOps} {CO : Collaborators}.

Lemma train_step_events a m K master dbg idx g st :
  Forall (loop_event_ok a m) (train_step K master dbg idx g st).1.
Proof.
  unfold train_step. destruct (K =? 0); cbn [fst]; [constructor|].
  rewrite !Forall_app.
  destruct (defers_sync K idx), (master && negb dbg), (applies_update K idx);
    repeat split; repeat constructor.
Qed.

Lemma train_step_error K master dbg idx g st e :
  (train_step K master dbg idx g st).2 = inl e -> e = ZeroDivisionError.
Proof.
  unfold train_step. destruct (K =? 0); cbn [snd]; congruence.
Qed.

Lemma train_batches_events a m K master dbg loader :
  forall idx st, Forall (loop_event_ok a m) (train_batches K master dbg idx loader st).1.
Proof.
  induction loader as [|g rest IH]; intros idx st; cbn [train_batches].
  - constructor.
  - pose proof (train_step_events a m K master dbg idx g st) as Hs.
    destruct (train_step K master dbg idx g st) as [ev [e|[st' l]]]; cbn [fst] in *.
    + exact Hs.
    + specialize (IH (S idx) st').
      destruct (train_batches K master dbg (S idx) rest st') as [ev' r].
      cbn [fst] in *. apply Forall_app; split; assumption.
Qed.

Lemma train_batches_error K master dbg loader :
  forall idx st e,
    (train_batches K master dbg idx loader st).2 = inl e -> e = ZeroDivisionError.
Proof.
  induction loader as [|g rest IH]; intros idx st e; cbn [train_batches].
  - discriminate.
  - pose proof (train_step_error K master dbg idx g st) as Hs.
    destruct (train_step K master dbg idx g st) as [ev [e'|[st' l]]]; cbn [snd] in *.
    + intros [= <-]. apply Hs. reflexivity.
    + specialize (IH (S idx) st' e).
      destruct (train_batches K master dbg (S idx) rest st') as [ev' r].
      exact IH.
Qed.

Lemma train_batches_total K master dbg loader :
  K <> 0 -> forall idx st, exists st', (train_batches K master dbg idx loader st).2 = inr st'.
Proof.
  intros HK. induction loader as [|g rest IH]; intros idx st; cbn [train_batches].
  - eauto.
  - rewrite train_step_ok by assumption.
    match goal with |- context [train_batches K master dbg (S idx) rest ?s] =>
      destruct (IH (S idx) s) as [st' Hst'];
      destruct (train_batches K master dbg (S idx) rest s) as [ev' r] end.
    cbn [snd] in *. eauto.
Qed.

Lemma validate_events a m self epoch rank ws peers :
  Forall (loop_event_ok a m) (validate self epoch rank ws peers).1.
Proof.
  unfold validate. cbn [fst]. rewrite !Forall_app. repeat split.
  - repeat constructor.
  - induction (local_valid_losses self) as [|x l IH]; cbn [flat_map].
    + constructor.
    + apply Forall_app. split; [repeat constructor|exact IH].
  - repeat constructor.
  - destruct (MASTER self), (debugger self); repeat constructor.
Qed.

Lemma decision_events helper self epoch v w :
  Forall (loop_event_ok (t_args self) (MASTER self))
         (checkpoint_decision helper self epoch v w).1.1.
Proof.
  rewrite checkpoint_decision_unfold. cbn [fst]. rewrite Forall_app. split.
  - repeat constructor.
  - destruct (MASTER self); [|constructor].
    destruct (save_condition _ v); repeat constructor.
Qed.

Lemma validate_and_save_events helper self epoch rank ws peers w :
  Forall (loop_event_ok (t_args self) (MASTER self))
         (validate_and_save helper self epoch rank ws peers w).1.1.
Proof.
  rewrite validate_and_save_unfold. cbn [fst]. rewrite !Forall_app.
  split; [repeat constructor|split].
  - apply validate_events.
  - apply decision_events.
Qed.

(** The files after a decision: untouched, or the run's path rewritten. *)
Lemma decision_files helper self epoch v w :
  let w' := (checkpoint_decision helper self epoch v w).1.2 in
  files w' = files w
  \/ (MASTER self = true
      /\ files w' = <[checkpoint_path (t_args self) := make_checkpoint self epoch]> (files w)).
Proof.
  rewrite checkpoint_decision_unfold. cbn [fst snd files].
  destruct (MASTER self); cbn [andb]; [|auto].
  destruct (save_condition _ v); auto.
Qed.

Lemma validate_and_save_io_inv helper self epoch rank ws peers w :
  let io := validate_and_save_io helper self epoch rank ws peers w in
  Forall (loop_event_ok (t_args self) (MASTER self)) io.1.1
  /\ dom (files io.1.2) ⊆ dom (files w) ∪ {[checkpoint_path (t_args self)]}
  /\ (MASTER self = false -> files io.1.2 = files w)
  /\ (forall e, io.2 = inl e -> loop_error e).
Proof.
  destruct (validate_and_save_io_spec helper self epoch rank ws peers w)
    as ((rest & Hpre) & Hres).
  pose proof (validate_and_save_events helper self epoch rank ws peers w) as Hvs.
  pose proof (decision_files helper self epoch
                (global_valid_loss self rank ws peers) w) as Hf.
  cbn zeta in *. rewrite Hpre in Hvs. apply Forall_app in Hvs. destruct Hvs as [Hvs _].
  split; [exact Hvs|].
  destruct ((validate_and_save_io helper self epoch rank ws peers w).2) as [e|s].
  - destruct Hres as (He & Hfw & _). rewrite Hfw.
    split; [apply union_subseteq_l|]. split; [reflexivity|].
    intros e' [= <-]. unfold loop_error. tauto.
  - destruct Hres as (_ & -> & _). rewrite validate_and_save_unfold. cbn [fst snd].
    split; [|split; [|discriminate]].
    + destruct Hf as [->|[_ ->]]; [apply union_subseteq_l|].
      rewrite dom_insert. cbn. apply union_least.
      * apply union_subseteq_r.
      * apply union_subseteq_l.
    + intros Hm. destruct Hf as [->|[Hm' _]]; [reflexivity|]. congruence.
Qed.

(** The ways through the body of the epoch loop. *)
Lemma train_epoch_cases helper self epoch rank ws peers w :
  let dl := loader_set_epoch epoch (train_loader self) in
  let head := [EvLogInfo (LogBeginEpoch epoch rank); EvSetEpoch epoch; EvModelTrain] in
  match iter_loader dl with
  | inl e => train_epoch helper self epoch rank ws peers w = (head, w, inl e)
  | inr loader =>
      let tb := train_batches (accumulation (t_args self)) (MASTER self) (debugger self)
                              0 loader (model self) in
      match tb.2 with
      | inl e => train_epoch helper self epoch rank ws peers w = (head ++ tb.1, w, inl e)
      | inr st =>
          let self' := with_model self st dl in
          let io := validate_and_save_io helper self' epoch rank ws peers w in
          train_epoch helper self epoch rank ws peers w
          = (head ++ tb.1
               ++ ([EvBarrier; EvAllGather]
                     ++ (if MASTER self then [EvLogInfo (LogTrainLoss epoch)] else []))
               ++ io.1.1,
             io.1.2,
             match io.2 with
             | inl e => inl e
             | inr should_stop => inr (self', should_stop)
             end)
      end
  end.
Proof.
  cbn zeta. unfold train_epoch.
  destruct (iter_loader _) as [e|loader]; [reflexivity|].
  destruct (train_batches _ _ _ _ _ _) as [ev [e|st]]; cbn [fst snd]; [reflexivity|].
  destruct (validate_and_save_io _ _ _ _ _ _ _) as [[ev' w'] [e|stop]]; reflexivity.
Qed.

Lemma train_epoch_inv helper self epoch rank ws peers w :
  let r := train_epoch helper self epoch rank ws peers w in
  Forall (loop_event_ok (t_args self) (MASTER self)) r.1.1
  /\ dom (files r.1.2) ⊆ dom (files w) ∪ {[checkpoint_path (t_args self)]}
  /\ (MASTER self = false -> files r.1.2 = files w)
  /\ match r.2 with
     | inl e => loop_error e
     | inr (self', _) =>
         t_args self' = t_args self /\ MASTER self' = MASTER self
         /\ debugger self' = debugger self /\ wrapper self' = wrapper self
         /\ valid_loader self' = valid_loader self
         /\ batch_size (train_loader self') = batch_size (train_loader self)
     end.
Proof.
  pose proof (train_epoch_cases helper self epoch rank ws peers w) as Hc.
  cbn zeta in *.
  set (dl := loader_set_epoch epoch (train_loader self)) in *.
  pose proof (iter_loader_inv dl) as Hit.
  destruct (iter_loader dl) as [e|loader].
  { rewrite Hc. cbn [fst snd]. split; [repeat constructor|].
    split; [apply union_subseteq_l|]. split; [reflexivity|].
    right. left. exact Hit. }
  clear Hit.
  pose proof (train_batches_events (t_args self) (MASTER self)
                (accumulation (t_args self)) (MASTER self) (debugger self)
                loader 0 (model self)) as Hev.
  pose proof (train_batches_error (accumulation (t_args self)) (MASTER self)
                (debugger self) loader 0 (model self)) as Herr.
  destruct (train_batches _ _ _ _ _ _) as [ev [e|st]]; cbn [fst snd] in *.
  { rewrite Hc. cbn [fst snd]. split.
    - apply Forall_app. split; [repeat constructor|exact Hev].
    - split; [apply union_subseteq_l|]. split; [reflexivity|].
      left. apply Herr. reflexivity. }
  set (self' := with_model self st dl) in *.
  destruct (validate_and_save_io_inv helper self' epoch rank ws peers w)
    as (Hio & Hdom & Hfiles & Hioe).
  rewrite Hc. cbn [fst snd]. split.
  { apply Forall_app. split; [repeat constructor|].
    apply Forall_app. split; [exact Hev|].
    apply Forall_app. split; [|exact Hio].
    destruct (MASTER self); repeat constructor. }
  split; [exact Hdom|]. split; [exact Hfiles|].
  destruct ((validate_and_save_io helper self' epoch rank ws peers w).2) as [e|stop].
  - exact (Hioe e eq_refl).
  - repeat split.
Qed.

Lemma train_epochs_inv helper rank ws peers epochs :
  forall self w,
    let r := train_epochs helper epochs self rank ws peers w in
    Forall (loop_event_ok (t_args self) (MASTER self)) r.1.1
    /\ dom (files r.1.2) ⊆ dom (files w) ∪ {[checkpoint_path (t_args self)]}
    /\ (MASTER self = false -> files r.1.2 = files w)
    /\ (forall e, r.2 = Some e -> loop_error e).
Proof.
  induction epochs as [|epoch rest IH]; intros self w; cbn [train_epochs].
  - cbn. repeat split; try constructor; try discriminate. apply union_subseteq_l.
  - pose proof (train_epoch_inv helper self epoch rank ws (peers epoch) w) as Hinv.
    destruct (train_epoch helper self epoch rank ws (peers epoch) w)
      as [[ev w'] [e|[self' stop]]]; cbn [fst snd] in *.
    + destruct Hinv as (Hev & Hdom & Hfiles & He).
      repeat split; auto.
      intros e' [= <-]. exact He.
    + destruct Hinv as (Hev & Hdom & Hfiles & Ha & Hm & _).
      destruct (stop || (epoch =? n_epochs (t_args self))); cbn [fst snd].
      * repeat split; auto. discriminate.
      * specialize (IH self' w'). rewrite Ha, Hm in IH.
        destruct (train_epochs helper rest self' rank ws peers w') as [[ev' w''] r].
        cbn [fst snd] in *. destruct IH as (Hev' & Hdom' & Hfiles' & Herr').
        repeat split; auto.
        -- apply Forall_app. split; assumption.
        -- etrans; [exact Hdom'|]. apply union_least; [exact Hdom|apply union_subseteq_r].
        -- intros Hm'. rewrite Hfiles', Hfiles by assumption. reflexivity.
Qed.

Lemma get_dataloader_inv a sp rank ws s dl :
  get_dataloader a sp rank ws = inr (s, dl) ->
  0 <= rank < ws
  /\ 0 < split_bsz a sp
  /\ s = {| ds_len := dataset_len sp; num_replicas := ws; ds_rank := rank;
            ds_epoch := 0; ds_seed := seed a; ds_drop_last := drop_last sp |}
  /\ dl = {| dl_sampler := s; batch_size := split_bsz a sp |}
  /\ - 2 ^ 63 <= seed a <= 2 ^ 64 - 1.
Proof.
  unfold get_dataloader, new_sampler, new_loader, seed_ok.
  destruct (Z.leb_spec (- 2 ^ 63) (seed a)); cbn [andb negb]; [|discriminate].
  destruct (Z.leb_spec (seed a) (2 ^ 64 - 1)); cbn [negb]; [|discriminate].
  destruct (Z.leb_spec ws rank); cbn [orb]; [discriminate|].
  destruct (Z.ltb_spec rank 0); [discriminate|].
  destruct (Z.leb_spec (split_bsz a sp) 0); [discriminate|].
  intros [= <- <-]. repeat split; lia.
Qed.

Lemma get_dataloader_ok a sp rank ws :
  0 <= rank < ws -> 0 < split_bsz a sp -> - 2 ^ 63 <= seed a <= 2 ^ 64 - 1 ->
  exists s dl, get_dataloader a sp rank ws = inr (s, dl).
Proof.
  intros Hr Hb Hs. unfold get_dataloader, new_sampler, new_loader, seed_ok.
  destruct (Z.leb_spec (- 2 ^ 63) (seed a)); [|lia].
  destruct (Z.leb_spec (seed a) (2 ^ 64 - 1)); [|lia]. cbn [andb negb].
  destruct (Z.leb_spec ws rank); [lia|].
  destruct (Z.ltb_spec rank 0); [lia|]. cbn [orb].
  destruct (Z.leb_spec (split_bsz a sp) 0); [lia|]. eauto.
Qed.

Lemma get_dataloader_error a sp rank ws e :
  get_dataloader a sp rank ws = inl e -> e = ValueError.
Proof.
  unfold get_dataloader, new_sampler, new_loader.
  destruct (negb _); [congruence|].
  destruct (_ || _); [congruence|].
  destruct (split_bsz a sp <=? 0); congruence.
Qed.

Lemma define_dataloader_ok a rank ws :
  0 <= rank < ws -> 0 < train_bsz a -> 0 < eval_bsz a ->
  - 2 ^ 63 <= seed a <= 2 ^ 64 - 1 ->
  exists tl vl, define_dataloader a rank ws = inr (tl, vl).
Proof.
  intros Hr Ht Hv Hs. unfold define_dataloader.
  destruct (get_dataloader_ok a Train rank ws Hr Ht Hs) as (s & dl & ->).
  destruct (get_dataloader_ok a Valid rank ws Hr Hv Hs) as (s' & dl' & ->).
  eauto.
Qed.

Lemma define_dataloader_error a rank ws e :
  define_dataloader a rank ws = inl e -> e = ValueError.
Proof.
  unfold define_dataloader.
  destruct (get_dataloader a Train rank ws) as [e'|[s dl]] eqn:Ht.
  - intros [= <-]. exact (get_dataloader_error _ _ _ _ _ Ht).
  - destruct (get_dataloader a Valid rank ws) as [e'|[s' dl']] eqn:Hv; [|discriminate].
    intros [= <-]. exact (get_dataloader_error _ _ _ _ _ Hv).
Qed.

(** The trace of [train] up to the end of the epoch loop. *)
Lemma train_shape helper a dbg rank ws peers w :
  let r := train helper a dbg rank ws peers w in
  (exists pre,
      Forall (loop_event_ok a (rank =? ws - 1)) pre
      /\ ((r.2 = SystemExit exit_message
           /\ r.1.1 = pre ++ [EvDestroyProcessGroup; EvLogInfo LogDone;
                              EvSysExit exit_message])
          \/ (loop_error r.2 /\ r.1.1 = pre)))
  /\ dom (files r.1.2) ⊆ dom (files w) ∪ {[checkpoint_path a]}
  /\ ((rank =? ws - 1) = false -> files r.1.2 = files w).
Proof.
  unfold train.
  set (init := (if (rank =? ws - 1) && negb dbg then [EvWandbInit] else [])
                 ++ [EvLogInfo LogMasterPort; EvInitProcessGroup rank ws; EvWrapDDP rank]
                 ++ (if rank =? ws - 1 then [EvLogInfo LogNumParams] else [])).
  assert (Hinit : Forall (loop_event_ok a (rank =? ws - 1)) init).
  { subst init. rewrite !Forall_app.
    destruct (rank =? ws - 1), dbg; cbn; repeat split; repeat constructor. }
  pose proof (define_dataloader_error a rank ws) as Hde.
  destruct (define_dataloader a rank ws) as [e|[tl vl]]; cbn [fst snd].
  - rewrite (Hde e eq_refl). repeat split.
    + exists init. split; [exact Hinit|]. right. unfold loop_error. auto.
    + apply union_subseteq_l.
  - match goal with |- context [train_epochs helper ?es ?self rank ws peers w] =>
      pose proof (train_epochs_inv helper rank ws peers es self w) as Hinv;
      destruct (train_epochs helper es self rank ws peers w) as [[ev w'] [e|]] end;
      cbn [fst snd t_args MASTER] in *;
      destruct Hinv as (Hev & Hdom & Hfiles & Herr).
    + repeat split; auto.
      exists (init ++ ev). split; [apply Forall_app; split; assumption|].
      right. split; [exact (Herr e eq_refl)|reflexivity].
    + repeat split; auto.
      exists (init ++ ev). split; [apply Forall_app; split; assumption|].
      left. split; [reflexivity|]. rewrite <- app_assoc. reflexivity.
Qed.

End TrainFacts.

Section CoordinatorTheorems.
Context {SO : ScoreOps} {CO : Collaborators}.

Lemma should_stop_early_best p v d s :
  best (should_stop_early p v d s).2 =
    match best s with
    | None => Some v
    | Some b => if is_better d v b then Some v else Some b
    end.
Proof.
  unfold should_stop_early. cbn [snd].
  destruct (best s) as [b|] eqn:E; [|reflexivity].
  destruct (is_better d v b); reflexivity.
Qed.

Lemma in_loop_trace_save a m tr path c :
  Forall (loop_event_ok a m) tr -> EvTorchSave path c ∈ tr ->
  m = true /\ path = checkpoint_path a /\ args_f c = a.
Proof.
  intros Hall Hin. rewrite Forall_forall in Hall. exact (Hall _ Hin).
Qed.

(** C4. A checkpoint is written only by the coordinating worker, the
    rank equal to [world_size - 1] (no other rank's run of [train] emits
    a save or changes the files), and only when the epoch's globally
    reduced validation score improves upon the best score seen so far
    (or there is none yet) or equals it. *)
Theorem checkpoint_only_by_coordinator_on_improvement :
  (forall (helper : stopper) a dbg rank ws peers w path c,
      EvTorchSave path c ∈ (train helper a dbg rank ws peers w).1.1 ->
      rank = ws - 1)
  /\ (forall (helper : stopper) a dbg rank ws peers w,
         rank <> ws - 1 ->
         files (train helper a dbg rank ws peers w).1.2 = files w)
  /\ (forall self epoch rank ws peers w path c,
         EvTorchSave path c ∈
           (validate_and_save should_stop_early self epoch rank ws peers w).1.1 ->
         MASTER self = true
         /\ match best (early w) with
            | None => True
            | Some b =>
                score_lt (global_valid_loss self rank ws peers) b = true
                \/ score_eq b (global_valid_loss self rank ws peers) = true
            end).
Proof.
  split; [|split].
  - intros helper a dbg rank ws peers w path c Hin.
    destruct (train_shape helper a dbg rank ws peers w) as ((pre & Hpre & Hcase) & _).
    assert (Hin' : EvTorchSave path c ∈ pre).
    { destruct Hcase as [[_ Heq]|[_ Heq]]; rewrite Heq in Hin; [|exact Hin].
      revert Hin. in_trace. }
    destruct (in_loop_trace_save _ _ _ _ _ Hpre Hin') as (Hm & _).
    apply Z.eqb_eq in Hm. exact Hm.
  - intros helper a dbg rank ws peers w Hne.
    destruct (train_shape helper a dbg rank ws peers w) as (_ & _ & Hfiles).
    apply Hfiles. apply Z.eqb_neq. exact Hne.
  - intros self epoch rank ws peers w path c Hin.
    apply validate_and_save_save, decision_save_inv in Hin.
    destruct Hin as (Hm & Hcond & _). split; [exact Hm|].
    rewrite should_stop_early_best in Hcond.
    destruct (best (early w)) as [b|]; [|exact I].
    cbn [is_better] in Hcond.
    destruct (score_lt (global_valid_loss self rank ws peers) b); [left; reflexivity|].
    right. exact Hcond.
Qed.

Lemma prefix_sep_file_name (e rest : string) :
  starts_with_sep e = false -> starts_with_sep (e +:+ "_" +:+ rest) = false.
Proof.
  destruct e as [|c e]; [reflexivity|]. cbn [starts_with_sep String.app]. auto.
Qed.

Lemma starts_with_sep_spec (s : string) :
  starts_with_sep s = true <-> exists rest, s = ("/" +:+ rest)%string.
Proof.
  destruct s as [|c s]; cbn [starts_with_sep].
  - split; [discriminate|]. intros [rest H]. discriminate H.
  - rewrite Ascii.eqb_eq. split.
    + intros ->. exists s. reflexivity.
    + intros [rest H]. injection H as -> _. reflexivity.
Qed.

Lemma ends_with_sep_spec (s : string) :
  ends_with_sep s = true <-> exists pre, s = (pre +:+ "/")%string.
Proof.
  induction s as [|c t IH].
  - cbn. split; [discriminate|]. intros [[|c p] H]; discriminate H.
  - destruct t as [|c' t'].
    + cbn [ends_with_sep]. rewrite Ascii.eqb_eq. split.
      * intros ->. exists ""%string. reflexivity.
      * intros [[|c0 [|c1 p]] H]; cbn in H.
        -- injection H as ->. reflexivity.
        -- discriminate H.
        -- discriminate H.
    + change (ends_with_sep (String c (String c' t')))
        with (ends_with_sep (String c' t')).
      rewrite IH. split.
      * intros [pre ->]. exists (String c pre). reflexivity.
      * intros [[|c0 p] H]; cbn in H; [discriminate H|].
        injection H as _ H. exists p. exact H.
Qed.

(** [os.path.join] of the directory and the file name, case by case. *)
Lemma checkpoint_path_cases (a : Args) :
  let file := (exp_name a +:+ "_" +:+ save_prefix a +:+ "_best.pt")%string in
  ((exists rest, exp_name a = ("/" +:+ rest)%string) -> checkpoint_path a = file)
  /\ ((forall rest, exp_name a <> ("/" +:+ rest)%string) ->
      ((save_dir a = ""%string \/ exists pre, save_dir a = (pre +:+ "/")%string) ->
       checkpoint_path a = (save_dir a +:+ file)%string)
      /\ (save_dir a <> ""%string ->
          (forall pre, save_dir a <> (pre +:+ "/")%string) ->
          checkpoint_path a = (save_dir a +:+ "/" +:+ file)%string)).
Proof.
  cbn zeta. unfold checkpoint_path, os_path_join. split.
  - intros [rest ->]. reflexivity.
  - intros Hlead.
    assert (Hs : starts_with_sep (exp_name a) = false).
    { apply not_true_is_false. intros Ht. apply starts_with_sep_spec in Ht.
      destruct Ht as [rest Ht]. exact (Hlead rest Ht). }
    rewrite (prefix_sep_file_name _ _ Hs). split.
    + intros [Hd|Hd].
      * rewrite Hd. reflexivity.
      * apply ends_with_sep_spec in Hd. rewrite Hd, orb_true_r. reflexivity.
    + intros Hd Htrail.
      destruct (String.eqb_spec (save_dir a) ""); [contradiction|].
      assert (He : ends_with_sep (save_dir a) = false).
      { apply not_true_is_false. intros Ht. apply ends_with_sep_spec in Ht.
        destruct Ht as [pre Ht]. exact (Htrail pre Ht). }
      rewrite He. reflexivity.
Qed.

End CoordinatorTheorems.

Section LoopExit.
Context {SO : ScoreOps} {CO : Collaborators}.


Lemma filter_none (p : event -> bool) (l : list event) :
  Forall (fun e => p e = false) l -> filter (fun e => p e = true) l = [].
Proof.
  induction 1 as [|e l He _ IH]; [reflexivity|].
  rewrite filter_cons. destruct (decide (p e = true)); [congruence|exact IH].
Qed.



(** [load_pretrained] raises, but [train] never calls it: whatever the
    value of [load_from_pretrained], a run of [train] ends with the final
    [SystemExit] or with an exception of the loaders, of the accumulation
    test or of the file system. *)
Lemma train_never_not_implemented (helper : stopper) (a : Args)
    (dbg : bool) (rank ws : Z) (peers : Z -> Z -> list score) (w : world) (msg : string) :
  (train helper a dbg rank ws peers w).2 <> NotImplementedError msg.
Proof.
  destruct (train_shape helper a dbg rank ws peers w) as ((pre & _ & Hcase) & _).
  destruct Hcase as [[-> _]|[[-> |[-> |[-> | ->]]] _]]; discriminate.
Qed.
End LoopExit.

Section Runs.
Context {SO : ScoreOps} {CO : Collaborators}.

Lemma decision_observed self epoch v w :
  let d := checkpoint_decision should_stop_early self epoch v w in
  let r := should_stop_early (patience (t_args self)) v Lower (early w) in
  existsb is_save d.1.1 = MASTER self && save_condition (best r.2) v
  /\ d.2 = (if patience (t_args self) =? 0 then false else r.1)
  /\ early d.1.2 = r.2.
Proof.
  rewrite checkpoint_decision_unfold. cbn [fst snd early].
  destruct (MASTER self); cbn [andb]; [|auto].
  destruct (save_condition _ v); auto.
Qed.

Lemma decisions_summary self scores :
  forall epoch w,
    (decisions should_stop_early self epoch scores w).1
    = summary (patience (t_args self)) (MASTER self) scores (early w).
Proof.
  induction scores as [|v rest IH]; intros epoch w; cbn [decisions summary].
  - reflexivity.
  - pose proof (decision_observed self epoch v w) as Hd. cbn zeta in Hd.
    destruct (checkpoint_decision should_stop_early self epoch v w) as [[ev w'] stop].
    cbn [fst snd] in Hd. destruct Hd as (Hs & -> & He).
    specialize (IH (epoch + 1) w').
    destruct (decisions should_stop_early self (epoch + 1) rest w') as [r w''].
    cbn [fst] in *. rewrite Hs, IH, He. reflexivity.
Qed.

(** The helper's state and the save test do not look at the patience. *)
Lemma summary_patience p q master scores :
  forall s, map fst (summary p master scores s) = map fst (summary q master scores s).
Proof.
  induction scores as [|v rest IH]; intros s; cbn [summary map fst].
  - reflexivity.
  - f_equal. apply IH.
Qed.
End Runs.

Section ExampleRun.
Context {CO : @Collaborators Q_scores}.

(** C2 (as the code has it). With patience 2, lower-is-better and the
    validation losses 0.9, 0.8, 0.85, 0.86, 0.87 of the first five epochs
    of a run, [should_stop] is [False] four times and [True] at the fifth
    epoch; the coordinator writes the checkpoint twice, at epoch 1 (there
    is no best score yet) and at epoch 2, and no other worker writes. *)
Theorem example_run_stops_at_fifth_epoch (self : trainer) (w : world) :
  patience (t_args self) = 2 ->
  early w = early_init ->
  let r := (decisions should_stop_early self 1 example_scores w).1 in
  map snd r = [false; false; false; false; true]
  /\ map fst r = (if MASTER self then [true; true; false; false; false]
                  else [false; false; false; false; false]).
Proof.
  intros Hp He r. subst r. rewrite decisions_summary, Hp, He.
  destruct (MASTER self); split; reflexivity.
Qed.
End ExampleRun.

(** C2 (as the spec words it) fails on the coordinator of the demo group:
    the run of the five example scores does not write exactly once, at
    epoch 2. *)
Lemma example_run_writes_twice :
  ~ (let r := (decisions should_stop_early (demo_worker 1) 1 example_scores
                         empty_world).1 in
     map snd r = [false; false; false; false; true]
     /\ map fst r = [false; true; false; false; false]).
Proof. vm_compute. intros [_ H]. discriminate H. Qed.

Lemma example_run_stops_at_fifth_epoch_witness :
  let r := (decisions should_stop_early (demo_worker 1) 1 example_scores
                      empty_world).1 in
  map snd r = [false; false; false; false; true]
  /\ map fst r = [true; true; false; false; false].
Proof.
  exact (example_run_stops_at_fifth_epoch (demo_worker 1) empty_world eq_refl eq_refl).
Defined.

Section PatienceZero.
Context {SO : ScoreOps} {CO : Collaborators}.

Lemma with_patience_decision p self epoch v w :
  let d := checkpoint_decision should_stop_early (with_patience p self) epoch v w in
  let r := should_stop_early p v Lower (early w) in
  existsb is_save d.1.1 = MASTER self && save_condition (best r.2) v
  /\ d.2 = (if p =? 0 then false else r.1)
  /\ early d.1.2 = r.2
  /\ (files d.1.2 = files w
      \/ exists c, files d.1.2 = <[checkpoint_path (t_args self) := c]> (files w)).
Proof.
  pose proof (decision_observed (with_patience p self) epoch v w) as Hd.
  pose proof (decision_files should_stop_early (with_patience p self) epoch v w) as Hf.
  cbn zeta in *. cbn [with_patience t_args patience MASTER] in *.
  destruct Hd as (H1 & H2 & H3). repeat split; auto.
  destruct Hf as [Hf|[_ Hf]]; [left; exact Hf|right].
  eexists. exact Hf.
Qed.

(** C10. Under the helper as the spec describes it, configuring patience
    as 0 rather than as any other value [p] changes the returned stop flag
    only (it is [False]): the helper is still called, on the same score;
    the best score and the counter it records are the same, the best
    score being replaced on every improving epoch; and the coordinator
    writes a checkpoint in exactly the same epochs, to the same path, in
    particular on each improving epoch (whose score equals itself). *)
Theorem patience_zero_changes_only_stop_flag (self : trainer)
    (epoch rank ws p : Z) (peers : Z -> list score) (scores : list score) (w : world) :
  let v := global_valid_loss self rank ws peers in
  let r0 := validate_and_save should_stop_early (with_patience 0 self)
                              epoch rank ws peers w in
  let rp := validate_and_save should_stop_early (with_patience p self)
                              epoch rank ws peers w in
  r0.2 = false
  /\ EvShouldStopEarly 0 v Lower ∈ r0.1.1
  /\ early r0.1.2 = early rp.1.2
  /\ best (early r0.1.2)
     = match best (early w) with
       | None => Some v
       | Some b => if score_lt v b then Some v else Some b
       end
  /\ existsb is_save r0.1.1 = existsb is_save rp.1.1
  /\ dom (files r0.1.2) = dom (files rp.1.2)
  /\ (MASTER self = true ->
      match best (early w) with None => True | Some b => score_lt v b = true end ->
      score_eq v v = true ->
      existsb is_save r0.1.1 = true)
  /\ map fst (decisions should_stop_early (with_patience 0 self) epoch scores w).1
     = map fst (decisions should_stop_early (with_patience p self) epoch scores w).1.
Proof.
  intros v r0 rp. subst r0 rp.
  rewrite !validate_and_save_unfold. cbn [fst snd].
  change (global_valid_loss (with_patience 0 self) rank ws peers) with v.
  change (global_valid_loss (with_patience p self) rank ws peers) with v.
  change (validate (with_patience 0 self) epoch rank ws peers)
    with (validate self epoch rank ws peers).
  change (validate (with_patience p self) epoch rank ws peers)
    with (validate self epoch rank ws peers).
  destruct (with_patience_decision 0 self epoch v w) as (S0 & T0 & E0 & F0).
  destruct (with_patience_decision p self epoch v w) as (Sp & Tp & Ep & Fp).
  assert (Hsave : forall q,
    existsb is_save
      ([EvMakedirs (save_dir (t_args (with_patience q self)))]
         ++ (validate self epoch rank ws peers).1
         ++ (checkpoint_decision should_stop_early (with_patience q self) epoch v w).1.1)
    = existsb is_save
        (checkpoint_decision should_stop_early (with_patience q self) epoch v w).1.1).
  { intros q. rewrite !existsb_app. cbn [existsb is_save orb].
    replace (existsb is_save (validate self epoch rank ws peers).1) with false;
      [reflexivity|].
    symmetry. apply not_true_is_false. intros Hex.
    apply existsb_exists in Hex. destruct Hex as (e & Hin & He).
    apply list_elem_of_In, validate_no_save in Hin. destruct Hin. congruence. }
  assert (Hbest : forall q, best (should_stop_early q v Lower (early w)).2
                  = match best (early w) with
                    | None => Some v
                    | Some b => if score_lt v b then Some v else Some b
                    end).
  { intros q. rewrite should_stop_early_best. reflexivity. }
  assert (Hstate : (should_stop_early 0 v Lower (early w)).2
                   = (should_stop_early p v Lower (early w)).2) by reflexivity.
  split; [exact T0|]. split.
  { rewrite checkpoint_decision_unfold. cbn [fst with_patience t_args patience].
    in_trace. }
  split; [rewrite E0, Ep; exact Hstate|].
  split; [rewrite E0; apply Hbest|].
  split; [rewrite !Hsave, S0, Sp, Hstate; reflexivity|].
  split.
  { pose proof (decision_files should_stop_early (with_patience 0 self) epoch v w) as G0.
    pose proof (decision_files should_stop_early (with_patience p self) epoch v w) as Gp.
    cbn zeta in G0, Gp.
    pose proof S0 as S0'. rewrite Hstate, <- Sp in S0'.
    rewrite !checkpoint_decision_unfold in *. cbn [fst snd files] in *.
    cbn [with_patience t_args patience MASTER] in *.
    rewrite Hstate.
    destruct (MASTER self && save_condition _ v); [|reflexivity].
    rewrite !dom_insert_L. reflexivity. }
  split.
  { intros Hm Himp Heq. rewrite Hsave, S0, Hm, (Hbest 0). cbn [andb].
    destruct (best (early w)) as [b|]; [rewrite Himp|]; exact Heq. }
  rewrite !decisions_summary. cbn [with_patience t_args patience MASTER].
  apply summary_patience.
Qed.
End PatienceZero.

Section Workers.
Context {SO : ScoreOps} {CO : Collaborators}.

(** Every worker receives the same gathered sequences. *)
Lemma all_gather_same (locals : Z -> list score) (rank ws : Z) :
  all_gather rank ws (locals rank) locals = map locals (ranks ws).
Proof.
  unfold all_gather. apply map_ext. intros r.
  destruct (Z.eqb_spec r rank) as [->|_]; reflexivity.
Qed.

Lemma count_decision_validate self epoch rank ws peers :
  filter (fun e => is_decision e = true) (validate self epoch rank ws peers).1 = [].
Proof.
  apply filter_none, Forall_forall. intros e Hin.
  apply validate_no_save in Hin. tauto.
Qed.

(** C3 (as the code has it). In every epoch each worker of the group,
    coordinator or not, derives the stop decision itself: it calls the
    early-stopping helper exactly once, on the globally reduced validation
    metric (the statistic of the losses gathered from all the workers,
    the same value on every rank, never its own partial losses), and
    returns the helper's answer unless patience is 0.  Workers whose
    helper state and patience agree return the same decision.  Only the
    save is reserved to the coordinator. *)
Theorem every_worker_decides_on_global_metric (helper : stopper)
    (selves : Z -> trainer) (worlds : Z -> world) (ws epoch r : Z) :
  let locals := fun r' => local_valid_losses (selves r') in
  let g := reduce_global (map locals (ranks ws)) in
  let run := fun r' => validate_and_save helper (selves r') epoch r' ws locals (worlds r') in
  let p := patience (t_args (selves r)) in
  global_valid_loss (selves r) r ws locals = g
  /\ count_events is_decision (run r).1.1 = 1%nat
  /\ EvShouldStopEarly p g Lower ∈ (run r).1.1
  /\ (run r).2 = (if p =? 0 then false else (helper p g Lower (early (worlds r))).1)
  /\ early (run r).1.2 = (helper p g Lower (early (worlds r))).2
  /\ (forall path c, EvTorchSave path c ∈ (run r).1.1 -> MASTER (selves r) = true)
  /\ (forall r', patience (t_args (selves r')) = p ->
                 early (worlds r') = early (worlds r) ->
                 (run r').2 = (run r).2).
Proof.
  intros locals g run p.
  assert (Hg : forall r', global_valid_loss (selves r') r' ws locals = g).
  { intros r'. unfold global_valid_loss. fold (locals r').
    rewrite all_gather_same. reflexivity. }
  assert (Hrun : forall r',
    (run r').2 = (if patience (t_args (selves r')) =? 0 then false
                  else (helper (patience (t_args (selves r'))) g Lower
                               (early (worlds r'))).1)).
  { intros r'. subst run. cbn beta. rewrite validate_and_save_unfold. cbn [snd].
    rewrite checkpoint_decision_unfold. cbn [snd]. rewrite Hg. reflexivity. }
  split; [apply Hg|].
  subst run. cbn beta. rewrite validate_and_save_unfold. cbn [fst snd]. rewrite Hg.
  split.
  { unfold count_events. rewrite !filter_app, count_decision_validate.
    rewrite checkpoint_decision_unfold. cbn [fst]. rewrite filter_app.
    rewrite (filter_none is_decision
               (if MASTER (selves r) then _ else _)).
    - reflexivity.
    - destruct (MASTER (selves r)); [|constructor].
      destruct (save_condition _ g); repeat constructor. }
  split.
  { rewrite checkpoint_decision_unfold. cbn [fst]. in_trace. }
  split; [rewrite checkpoint_decision_unfold; reflexivity|].
  split; [rewrite checkpoint_decision_unfold; reflexivity|].
  split.
  { intros path c Hin.
    assert (Hin' : EvTorchSave path c ∈
              (checkpoint_decision helper (selves r) epoch g (worlds r)).1.1).
    { rewrite !elem_of_app in Hin. destruct Hin as [Hin|[Hin|Hin]]; [| |exact Hin].
      - revert Hin. in_trace.
      - apply validate_no_save in Hin. cbn in Hin. destruct Hin. discriminate. }
    apply decision_save_inv in Hin'. tauto. }
  intros r' Hp He. cbn beta in Hrun. rewrite Hrun, Hp, He.
  rewrite checkpoint_decision_unfold. reflexivity.
Qed.
End Workers.

(** C3 (as the spec words it) fails in the demo group of two: rank 0 is
    not the coordinator, and yet its [validate_and_save] calls the helper,
    so that the decision is derived twice in the epoch, not once. *)
Lemma non_coordinator_decides_too :
  let locals := fun r => local_valid_losses (demo_worker r) in
  let run := fun r =>
    validate_and_save should_stop_early (demo_worker r) 1 r 2 locals empty_world in
  ~ (forall r, r ∈ ranks 2 -> MASTER (demo_worker r) = false ->
               count_events is_decision (run r).1.1 = 0%nat)
  /\ sum_list (map (fun r => count_events is_decision (run r).1.1) (ranks 2)) = 2%nat.
Proof.
  split; [|vm_compute; reflexivity].
  intros Hall. specialize (Hall 0). vm_compute in Hall.
  assert (H1 : 1%nat = 0%nat) by (apply Hall; [left|reflexivity]).
  discriminate H1.
Qed.

(** ** Shards *)

Section SliceFacts.
Context {A : Type}.

Lemma omap_all_some {B} (f : B -> option A) (ks : list B) :
  (forall k, k ∈ ks -> is_Some (f k)) -> length (omap f ks) = length ks.
Proof.
  induction ks as [|k ks IH]; intros Hall; [reflexivity|].
  cbn [omap list_omap]. destruct (Hall k) as [x Hx]; [left|].
  rewrite Hx. cbn [length]. f_equal. apply IH. intros k' Hk'. apply Hall. by right.
Qed.

Lemma slice_count (n step start : nat) :
  (start < step)%nat ->
  (if (start <? n * step)%nat then ((n * step - start - 1) / step + 1)%nat else 0%nat) = n.
Proof.
  intros Hs. destruct n as [|n].
  - cbn. reflexivity.
  - destruct (Nat.ltb_spec start (S n * step)) as [_|Hge]; [|nia].
    replace (S n * step - start - 1)%nat with ((step - start - 1) + n * step)%nat by nia.
    rewrite Nat.div_add by lia. rewrite Nat.div_small by lia. lia.
Qed.

(** A list of [n * step] items, cut with stride [step] from [start]. *)
Lemma py_slice_full (l : list A) (n step start : nat) :
  length l = (n * step)%nat -> (start < step)%nat ->
  length (py_slice l start (n * step) step) = n
  /\ forall k x, (k < n)%nat -> l !! (start + k * step)%nat = Some x ->
                 x ∈ py_slice l start (n * step) step.
Proof.
  intros Hlen Hs. unfold py_slice.
  rewrite Hlen, Nat.min_id, slice_count by assumption. split.
  - rewrite omap_all_some; [apply length_seq|].
    intros k Hk. apply elem_of_seq in Hk. apply lookup_lt_is_Some. nia.
  - intros k x Hk Hx. apply list_elem_of_omap. exists k. split; [|exact Hx].
    apply elem_of_seq. lia.
Qed.

Lemma batches_fuel_length (b : nat) (fuel : nat) :
  forall l l' : list A, length l = length l' ->
    length (batches_fuel fuel b l) = length (batches_fuel fuel b l').
Proof.
  induction fuel as [|f IH]; intros l l' Hlen; [reflexivity|].
  destruct l as [|x l], l' as [|x' l']; try discriminate; [reflexivity|].
  cbn [batches_fuel length]. f_equal. apply IH.
  rewrite !length_drop. congruence.
Qed.

Lemma batches_length (b : nat) (l l' : list A) :
  length l = length l' -> length (batches b l) = length (batches b l').
Proof.
  intros Hlen. unfold batches. rewrite Hlen. apply batches_fuel_length, Hlen.
Qed.

End SliceFacts.

Section ShardFacts.
Context {SO : ScoreOps} {CO : Collaborators}.

Lemma randperm_length sd n : length (randperm sd n) = n.
Proof. rewrite (Permutation_length (randperm_perm sd n)). apply length_seq. Qed.


Lemma ceil_div_bounds a b : 0 < b -> a <= ceil_div a b * b < a + b.
Proof.
  intros Hb. unfold ceil_div.
  pose proof (Z.div_mod (- a) b ltac:(lia)) as Hdm.
  pose proof (Z.mod_pos_bound (- a) b Hb) as Hm. nia.
Qed.

(** With the drop policy each rank gets [len / num_replicas] samples. *)
Lemma num_samples_drop s :
  0 < num_replicas s -> ds_drop_last s = true ->
  num_samples s = Z.of_nat (ds_len s) / num_replicas s.
Proof.
  intros HN Hd. unfold num_samples, ceil_div. rewrite Hd. cbn [andb].
  set (M := Z.of_nat (ds_len s)). set (N := num_replicas s) in *.
  destruct (Z.eqb_spec (M mod N) 0) as [E|E]; cbn [negb].
  - rewrite Z.div_opp_l_z by lia. lia.
  - assert (Hmod : (M - N) mod N <> 0).
    { replace (M - N) with (M + (-1) * N) by lia. rewrite Z.mod_add by lia. exact E. }
    rewrite Z.div_opp_l_nz by lia.
    replace (M - N) with (M + (-1) * N) by lia. rewrite Z.div_add by lia. lia.
Qed.

Lemma total_size_drop s :
  0 < num_replicas s -> ds_drop_last s = true ->
  0 <= total_size s <= Z.of_nat (ds_len s).
Proof.
  intros HN Hd. unfold total_size. rewrite num_samples_drop by assumption.
  pose proof (Z.div_mod (Z.of_nat (ds_len s)) (num_replicas s) ltac:(lia)).
  pose proof (Z.mod_pos_bound (Z.of_nat (ds_len s)) (num_replicas s) HN).
  pose proof (Z.div_pos (Z.of_nat (ds_len s)) (num_replicas s) ltac:(lia) HN).
  nia.
Qed.

Lemma total_size_pad s :
  0 < num_replicas s -> ds_drop_last s = false ->
  Z.of_nat (ds_len s) <= total_size s < Z.of_nat (ds_len s) + num_replicas s
  /\ 0 <= num_samples s.
Proof.
  intros HN Hd. unfold total_size, num_samples. rewrite Hd. cbn [andb].
  pose proof (ceil_div_bounds (Z.of_nat (ds_len s)) (num_replicas s) HN). nia.
Qed.

Lemma num_samples_nonneg s : 0 < num_replicas s -> 0 <= num_samples s.
Proof.
  intros HN. destruct (ds_drop_last s) eqn:Hd.
  - rewrite num_samples_drop by assumption. apply Z.div_pos; lia.
  - apply total_size_pad; assumption.
Qed.

Lemma length_mjoin_replicate (k : nat) (l : list nat) :
  length (mjoin (replicate k l)) = (k * length l)%nat.
Proof.
  induction k as [|k IH]; [reflexivity|].
  cbn [replicate].
  change (mjoin (l :: replicate k l)) with (l ++ mjoin (replicate k l)).
  rewrite length_app, IH. lia.
Qed.

(** Padded or cut, the index list has exactly [total_size] entries, and
    padding keeps the whole permutation in front. *)
Lemma padded_indices_length s :
  0 < num_replicas s ->
  length (padded_indices s) = Z.to_nat (total_size s).
Proof.
  intros HN. unfold padded_indices.
  set (indices := randperm (ds_seed s + ds_epoch s) (ds_len s)).
  assert (Hlen : length indices = ds_len s) by apply randperm_length.
  destruct (ds_drop_last s) eqn:Hd.
  - pose proof (total_size_drop s HN Hd). rewrite length_take. lia.
  - pose proof (total_size_pad s HN Hd) as [Hb _]. rewrite Hlen.
    destruct (Z.leb_spec (total_size s - Z.of_nat (ds_len s)) (Z.of_nat (ds_len s))).
    + rewrite length_app, length_take. lia.
    + rewrite length_app, length_take, length_mjoin_replicate, Hlen.
      assert (Hpos : 0 < Z.of_nat (ds_len s)).
      { destruct (ds_len s) as [|m] eqn:Em; [exfalso|lia].
        unfold total_size in *. pose proof (num_samples_nonneg s HN) as Hns.
        assert (Hcase : num_samples s = 0 \/ 1 <= num_samples s) by lia.
        destruct Hcase as [E0|E1]; [rewrite E0 in *; lia|nia]. }
      pose proof (ceil_div_bounds (total_size s - Z.of_nat (ds_len s))
                    (Z.of_nat (ds_len s)) Hpos) as Hc.
      assert (0 <= ceil_div (total_size s - Z.of_nat (ds_len s)) (Z.of_nat (ds_len s)))
        by nia.
      assert (Z.to_nat (total_size s - Z.of_nat (ds_len s))
              <= Z.to_nat (ceil_div (total_size s - Z.of_nat (ds_len s))
                                    (Z.of_nat (ds_len s))) * ds_len s)%nat by nia.
      lia.
Qed.


(** The shard of a rank of the group has [num_samples] entries. *)
Lemma sampler_iter_length s :
  0 <= ds_rank s < num_replicas s ->
  length (sampler_iter s) = Z.to_nat (num_samples s).
Proof.
  intros Hr. unfold sampler_iter.
  assert (HN : 0 < num_replicas s) by lia.
  pose proof (num_samples_nonneg s HN) as Hns.
  assert (Htot : Z.to_nat (total_size s)
                 = (Z.to_nat (num_samples s) * Z.to_nat (num_replicas s))%nat).
  { unfold total_size. rewrite Z2Nat.inj_mul by lia. reflexivity. }
  rewrite Htot. apply py_slice_full.
  - rewrite padded_indices_length by assumption. exact Htot.
  - lia.
Qed.
End ShardFacts.

Section ShardTheorems.
Context {SO : ScoreOps} {CO : Collaborators}.


End ShardTheorems.

(** C6 (as the spec words it) fails for an experiment name with a leading
    separator: the coordinator of the demo group then writes its
    checkpoint to [/tmp/x/gear_pt_best.pt], which is not
    [save_dir/exp_name_save_prefix_best.pt] and not under [save_dir]. *)
Lemma checkpoint_path_outside_save_dir :
  ~ (forall path c,
        EvTorchSave path c
          ∈ (train (CO := counting) should_stop_early slash_args false 1 2
                   (fun _ _ => []) empty_world).1.1 ->
        path = (save_dir slash_args +:+ "/" +:+ exp_name slash_args +:+ "_"
                  +:+ save_prefix slash_args +:+ "_best.pt")%string).
Proof.
  intros Hall.
  assert (Hin : EvTorchSave "/tmp/x/gear_pt_best.pt"%string
                  (@Build_checkpoint Q_scores counting
                     [("module.weight"%string, 0%nat)] 0%nat 1 slash_args)
                ∈ (train (CO := counting) should_stop_early slash_args false 1 2
                         (fun _ _ => []) empty_world).1.1).
  { apply (list_elem_of_lookup_2 _ 43%nat). reflexivity. }
  apply Hall in Hin. discriminate Hin.
Qed.

(** C7 (what the code does). With [load_from_pretrained] set, the
    coordinator of the demo group does not raise the "not supported" error
    of [load_pretrained]: the call is absent from [train], the worker trains
    (forward passes, epochs, a checkpoint) and ends with the ordinary
    [SystemExit]; no run of [train] ever ends with [NotImplementedError]. *)
Theorem resume_request_is_ignored :
  let r := train (CO := counting) should_stop_early resume_args false 1 2
                 (fun _ _ => []) empty_world in
  load_from_pretrained resume_args = true
  /\ (@load_pretrained Q_scores counting unit).2 = inl (NotImplementedError "Not yet")
  /\ r.2 = SystemExit exit_message
  /\ existsb is_forward r.1.1 = true
  /\ existsb is_save r.1.1 = true
  /\ forall msg, r.2 <> NotImplementedError msg.
Proof.
  split; [reflexivity|]. split; [reflexivity|].
  split; [vm_compute; reflexivity|].
  split; [vm_compute; reflexivity|].
  split; [vm_compute; reflexivity|].
  intros msg. apply train_never_not_implemented.
Qed.

(** ** The theorems at work on the demo group *)

Lemma accumulation_controller_witness :
  1 <= 4
  /\ sync_flags
       (train_batches (CO := counting) 4 true false 0
          [[0%nat]; [1%nat]; [2%nat]; [3%nat]; [4%nat]; [5%nat]; [6%nat]; [7%nat]]
          0%nat).1
     = [false; false; false; true; false; false; false; true].
Proof.
  split; [lia|].
  exact (proj1 (proj2 (proj2 (accumulation_controller (CO := counting) 4 true false
           [[0%nat]; [1%nat]; [2%nat]; [3%nat]; [4%nat]; [5%nat]; [6%nat]; [7%nat]]
           0%nat ltac:(lia))))).
Defined.

Lemma patience_zero_never_stops_witness :
  patience (t_args (with_patience 0 (demo_worker 1))) = 0
  /\ (validate_and_save should_stop_early (with_patience 0 (demo_worker 1))
                        1 1 2 (fun _ => []) empty_world).2 = false.
Proof.
  split; [reflexivity|].
  exact (proj1 (patience_zero_never_stops should_stop_early
                  (with_patience 0 (demo_worker 1)) 1 1 2 (fun _ => []) []
                  empty_world eq_refl)).
Defined.

Lemma checkpoint_only_by_coordinator_witness :
  0 <> 2 - 1
  /\ files (train (CO := counting) should_stop_early demo_args false 0 2
                  (fun _ _ => []) empty_world).1.2 = ∅.
Proof.
  split; [lia|].
  exact (proj1 (proj2 (checkpoint_only_by_coordinator_on_improvement (CO := counting)))
           should_stop_early demo_args false 0 2 (fun _ _ => []) empty_world
           ltac:(lia)).
Defined.


Lemma patience_zero_changes_only_stop_flag_witness :
  existsb is_save
    (validate_and_save should_stop_early (with_patience 0 (demo_worker 1))
                       1 1 2 (fun _ => []) empty_world).1.1 = true.
Proof.
  apply (patience_zero_changes_only_stop_flag (CO := counting)
           (demo_worker 1) 1 1 2 2 (fun _ => []) [] empty_world).
  - reflexivity.
  - exact I.
  - reflexivity.
Defined.

Lemma every_worker_decides_witness :
  (validate_and_save should_stop_early (demo_worker 1) 1 1 2
                     (fun r => local_valid_losses (demo_worker r)) empty_world).2
  = (validate_and_save should_stop_early (demo_worker 0) 1 0 2
                       (fun r => local_valid_losses (demo_worker r)) empty_world).2.
Proof.
  apply (every_worker_decides_on_global_metric (CO := counting) should_stop_early
           demo_worker (fun _ => empty_world) 2 1 0).
  - reflexivity.
  - reflexivity.
Defined.


(** ** Gradient accumulation over an epoch *)

Section Accumulation.
Context {SO : ScoreOps} {CO : Collaborators}.

Lemma count_events_app (p : event -> bool) (l1 l2 : list event) :
  count_events p (l1 ++ l2) = (count_events p l1 + count_events p l2)%nat.
Proof. unfold count_events. rewrite filter_app, length_app. reflexivity. Qed.

Lemma div_succ (K a : Z) :
  0 < K -> (a + 1) / K = a / K + (if (a + 1) mod K =? 0 then 1 else 0).
Proof.
  intros HK.
  pose proof (Z.div_mod (a + 1) K ltac:(lia)) as Hdm.
  pose proof (Z.mod_pos_bound (a + 1) K HK) as Hb.
  destruct (Z.eqb_spec ((a + 1) mod K) 0) as [E|E].
  - assert (Hq : (a + 1) / K - 1 = a / K)
      by (apply (Z.div_unique a K ((a + 1) / K - 1) (K - 1)); lia).
    lia.
  - assert (Hq : (a + 1) / K = a / K)
      by (apply (Z.div_unique a K ((a + 1) / K) ((a + 1) mod K - 1)); lia).
    lia.
Qed.

Lemma train_step_counts K master dbg idx g st :
  K <> 0 ->
  count_events is_optimizer_step (train_step K master dbg idx g st).1
  = (if applies_update K idx then 1 else 0)%nat
  /\ count_events is_backward (train_step K master dbg idx g st).1 = 1%nat.
Proof.
  intros HK. rewrite train_step_ok by assumption. cbn [fst].
  destruct (defers_sync K idx), (applies_update K idx), (master && negb dbg);
    split; reflexivity.
Qed.

Lemma train_batches_counts K master dbg loader :
  0 < K -> forall idx st,
    Z.of_nat (count_events is_optimizer_step (train_batches K master dbg idx loader st).1)
    = (Z.of_nat idx + Z.of_nat (length loader)) / K - Z.of_nat idx / K
    /\ count_events is_backward (train_batches K master dbg idx loader st).1
       = length loader.
Proof.
  intros HK. induction loader as [|g rest IH]; intros idx st.
  - cbn. split; [|reflexivity]. rewrite Z.add_0_r. lia.
  - cbn [train_batches length].
    destruct (train_step_counts K master dbg idx g st ltac:(lia)) as [Hs Hb].
    rewrite train_step_ok in * by lia. cbn [fst] in Hs, Hb.
    match goal with |- context [train_batches K master dbg (S idx) rest ?s] =>
      destruct (IH (S idx) s) as [IHs IHb];
      destruct (train_batches K master dbg (S idx) rest s) as [ev' r] end.
    cbn [fst] in *. rewrite !count_events_app in *. split.
    + pose proof (div_succ K (Z.of_nat idx) HK) as Hd.
      unfold applies_update in *.
      replace (Z.of_nat (S idx)) with (Z.of_nat idx + 1) in IHs by lia.
      replace (Z.of_nat idx + Z.of_nat (S (length rest)))
        with (Z.of_nat idx + 1 + Z.of_nat (length rest)) by lia.
      destruct ((Z.of_nat idx + 1) mod K =? 0); lia.
    + lia.
Qed.

(** The loop over a loader in two pieces. *)
Lemma train_batches_app K master dbg l1 l2 :
  K <> 0 -> forall idx st,
    exists st1,
      (train_batches K master dbg idx l1 st).2 = inr st1
      /\ (train_batches K master dbg idx (l1 ++ l2) st).1
         = (train_batches K master dbg idx l1 st).1
             ++ (train_batches K master dbg (idx + length l1) l2 st1).1.
Proof.
  intros HK. induction l1 as [|g rest IH]; intros idx st.
  - exists st. cbn. rewrite Nat.add_0_r. auto.
  - cbn [train_batches app length]. rewrite train_step_ok by assumption.
    match goal with |- context [train_batches K master dbg (S idx) rest ?s] =>
      destruct (IH (S idx) s) as (st1 & Hst1 & Happ);
      destruct (train_batches K master dbg (S idx) (rest ++ l2) s) as [ev2 r2];
      destruct (train_batches K master dbg (S idx) rest s) as [ev1 r1] end.
    cbn [fst snd] in *. exists st1. split; [exact Hst1|].
    replace (idx + S (length rest))%nat with (S idx + length rest)%nat by lia.
    rewrite Happ, <- !app_assoc. reflexivity.
Qed.

(** X1. In an epoch of [n] training batches with accumulation factor
    [K >= 1] the loop runs [n] backward passes and exactly [n / K] optimizer
    updates; the last [n mod K] backward passes of the epoch are followed
    by no update: a trailing partial group is not flushed. *)
Theorem trailing_group_not_flushed (K : Z) (master dbg : bool)
    (loader : list (list nat)) (st : tstate) :
  1 <= K ->
  let tr := (train_batches K master dbg 0 loader st).1 in
  let n := Z.of_nat (length loader) in
  count_events is_backward tr = length loader
  /\ Z.of_nat (count_events is_optimizer_step tr) = n / K
  /\ exists pre post,
       tr = pre ++ post
       /\ Z.of_nat (count_events is_backward post) = n mod K
       /\ count_events is_optimizer_step post = 0%nat.
Proof.
  intros HK tr n. subst tr.
  destruct (train_batches_counts K master dbg loader ltac:(lia) 0%nat st) as [Hs Hb].
  split; [exact Hb|]. split.
  { rewrite Hs. cbn [Z.of_nat]. rewrite Z.add_0_l, Z.div_0_l by lia. fold n. lia. }
  set (m := Z.to_nat (K * (n / K))).
  pose proof (Z.div_mod n K ltac:(lia)) as Hdm.
  pose proof (Z.mod_pos_bound n K ltac:(lia)) as Hmod.
  assert (Hq : 0 <= n / K) by (apply Z.div_pos; lia).
  assert (Hm : (m <= length loader)%nat) by (subst m n; nia).
  destruct (train_batches_app K master dbg (take m loader) (drop m loader)
              ltac:(lia) 0%nat st) as (st1 & _ & Happ).
  rewrite take_drop in Happ.
  exists (train_batches K master dbg 0 (take m loader) st).1,
         (train_batches K master dbg (0 + length (take m loader)) (drop m loader) st1).1.
  split; [exact Happ|].
  destruct (train_batches_counts K master dbg (drop m loader) ltac:(lia)
              (0 + length (take m loader))%nat st1) as [Hs' Hb'].
  rewrite length_take, length_drop in *.
  replace (0 + m `min` length loader)%nat with m in * by lia.
  assert (HmZ : Z.of_nat m = K * (n / K)) by (subst m; lia).
  split.
  - rewrite Hb'. subst n. lia.
  - apply Nat2Z.inj. rewrite Hs'.
    replace (Z.of_nat m + Z.of_nat (length loader - m)) with n by (subst n; lia).
    rewrite HmZ. rewrite (Z.mul_comm K), Z.div_mul by lia. lia.
Qed.
End Accumulation.

(** ** The shape of an epoch *)

Section EpochShape.
Context {SO : ScoreOps} {CO : Collaborators}.

Lemma omap_none {B} (f : event -> option B) (l : list event) :
  Forall (fun e => f e = None) l -> omap f l = [].
Proof.
  induction 1 as [|e l He _ IH]; [reflexivity|].
  cbn [omap list_omap]. rewrite He. exact IH.
Qed.

Lemma train_step_step_events K master dbg idx g st :
  Forall (fun e => is_step_event e = true) (train_step K master dbg idx g st).1.
Proof.
  unfold train_step. destruct (K =? 0); cbn [fst]; [constructor|].
  destruct (defers_sync K idx), (master && negb dbg), (applies_update K idx);
    repeat constructor.
Qed.

Lemma train_batches_step_events K master dbg loader :
  forall idx st,
    Forall (fun e => is_step_event e = true) (train_batches K master dbg idx loader st).1.
Proof.
  induction loader as [|g rest IH]; intros idx st; cbn [train_batches].
  - constructor.
  - pose proof (train_step_step_events K master dbg idx g st) as Hs.
    destruct (train_step K master dbg idx g st) as [ev [e|[st' l]]]; cbn [fst] in *.
    + exact Hs.
    + specialize (IH (S idx) st').
      destruct (train_batches K master dbg (S idx) rest st') as [ev' r].
      cbn [fst] in *. apply Forall_app; split; assumption.
Qed.

(** The inner loop has no synchronization point, begins no epoch and
    writes nothing. *)
Lemma train_batches_projections K master dbg idx loader st :
  let tr := (train_batches K master dbg idx loader st).1 in
  filter (fun e => is_sync_point e = true) tr = []
  /\ epochs_run tr = [] /\ saves_of tr = []
  /\ Forall (fun e => is_save e = false) tr.
Proof.
  pose proof (train_batches_step_events K master dbg loader idx st) as Hall.
  cbn zeta. repeat split.
  - apply filter_none. eapply Forall_impl; [exact Hall|].
    intros e; destruct e; cbn; congruence.
  - apply omap_none. eapply Forall_impl; [exact Hall|].
    intros e; destruct e; cbn; congruence.
  - apply omap_none. eapply Forall_impl; [exact Hall|].
    intros e; destruct e; cbn; congruence.
  - eapply Forall_impl; [exact Hall|]. intros e; destruct e; cbn; congruence.
Qed.

Lemma validate_projections self epoch rank ws peers :
  let tr := (validate self epoch rank ws peers).1 in
  filter (fun e => is_sync_point e = true) tr = [EvBarrier; EvAllGather]
  /\ epochs_run tr = [] /\ saves_of tr = [].
Proof.
  unfold validate. cbn [fst].
  assert (Hfm : forall own : list score,
    filter (fun e => is_sync_point e = true)
           (flat_map (fun _ => [EvForward; EvMetricUpdate]) own) = []
    /\ epochs_run (flat_map (fun _ => [EvForward; EvMetricUpdate]) own) = []
    /\ saves_of (flat_map (fun _ => [EvForward; EvMetricUpdate]) own) = []).
  { induction own as [|x own IH]; [repeat split|]. exact IH. }
  destruct (Hfm (local_valid_losses self)) as (F1 & F2 & F3).
  unfold epochs_run, saves_of in *.
  rewrite !filter_app, !omap_app, F1, F2, F3.
  destruct (MASTER self), (debugger self); repeat split; reflexivity.
Qed.

Lemma decision_projections helper self epoch v w :
  let d := checkpoint_decision helper self epoch v w in
  let saves := MASTER self
               && save_condition (best (helper (patience (t_args self)) v Lower
                                               (early w)).2) v in
  filter (fun e => is_sync_point e = true) d.1.1 = [EvBarrier]
  /\ epochs_run d.1.1 = []
  /\ saves_of d.1.1
     = (if saves then [(checkpoint_path (t_args self), make_checkpoint self epoch)]
        else [])
  /\ files d.1.2 = replay_saves (saves_of d.1.1) (files w)
  /\ exists post, d.1.1 = [EvShouldStopEarly (patience (t_args self)) v Lower; EvBarrier]
                          ++ post
                  /\ Forall (fun e => is_sync_point e = false) post.
Proof.
  rewrite checkpoint_decision_unfold. cbn [fst snd files].
  destruct (MASTER self); cbn [andb].
  - destruct (save_condition _ v); repeat split;
      try reflexivity; eexists; (split; [reflexivity|repeat constructor]).
  - repeat split; try reflexivity. eexists. split; [reflexivity|constructor].
Qed.

Lemma validate_and_save_projections helper self epoch rank ws peers w :
  let vs := validate_and_save helper self epoch rank ws peers w in
  filter (fun e => is_sync_point e = true) vs.1.1 = [EvBarrier; EvAllGather; EvBarrier]
  /\ epochs_run vs.1.1 = []
  /\ files vs.1.2 = replay_saves (saves_of vs.1.1) (files w).
Proof.
  cbn zeta. rewrite validate_and_save_unfold. cbn [fst snd].
  destruct (validate_projections self epoch rank ws peers) as (V1 & V2 & V3).
  destruct (decision_projections helper self epoch
              (global_valid_loss self rank ws peers) w) as (D1 & D2 & _ & D4 & _).
  unfold epochs_run, saves_of in *.
  rewrite !filter_app, !omap_app, V1, V2, V3, D1, D2. cbn [app].
  repeat split; try reflexivity. exact D4.
Qed.

Lemma saves_of_none (l : list event) :
  Forall (fun e => is_save e = false) l -> saves_of l = [].
Proof.
  intros Hall. apply omap_none. eapply Forall_impl; [exact Hall|].
  intros e; destruct e; cbn; congruence.
Qed.

Lemma validate_and_save_io_projections helper self epoch rank ws peers w :
  let vs := validate_and_save helper self epoch rank ws peers w in
  let io := validate_and_save_io helper self epoch rank ws peers w in
  epochs_run io.1.1 = []
  /\ files io.1.2 = replay_saves (saves_of io.1.1) (files w)
  /\ match io.2 with
     | inl _ => True
     | inr s =>
         filter (fun e => is_sync_point e = true) io.1.1
         = [EvBarrier; EvAllGather; EvBarrier]
         /\ s = vs.2
     end.
Proof.
  destruct (validate_and_save_io_spec helper self epoch rank ws peers w)
    as ((rest & Hpre) & Hres).
  destruct (validate_and_save_projections helper self epoch rank ws peers w)
    as (S1 & S2 & S3).
  cbn zeta in *. split.
  { rewrite Hpre in S2. unfold epochs_run in *. rewrite omap_app in S2.
    apply app_eq_nil in S2. tauto. }
  destruct ((validate_and_save_io helper self epoch rank ws peers w).2) as [e|s].
  - destruct Hres as (_ & Hf & Hns). rewrite Hf, (saves_of_none _ Hns).
    split; reflexivity.
  - destruct Hres as (-> & -> & ->). auto.
Qed.

Lemma train_epoch_projections helper self epoch rank ws peers w :
  let r := train_epoch helper self epoch rank ws peers w in
  epochs_run r.1.1 = [epoch]
  /\ files r.1.2 = replay_saves (saves_of r.1.1) (files w)
  /\ match r.2 with
     | inl _ => True
     | inr _ => filter (fun e => is_sync_point e = true) r.1.1 = epoch_sync_points
     end.
Proof.
  pose proof (train_epoch_cases helper self epoch rank ws peers w) as Hc.
  cbn zeta in *.
  set (dl := loader_set_epoch epoch (train_loader self)) in *.
  destruct (iter_loader dl) as [e|loader].
  { rewrite Hc. cbn [fst snd]. repeat split; reflexivity. }
  destruct (train_batches_projections (accumulation (t_args self)) (MASTER self)
              (debugger self) 0 loader (model self)) as (B1 & B2 & B3 & _).
  destruct ((train_batches _ _ _ _ _ _).2) as [e|st]; rewrite Hc; cbn [fst snd].
  - unfold epochs_run, saves_of in *. rewrite !omap_app, B2, B3.
    repeat split; reflexivity.
  - destruct (validate_and_save_io_projections helper (with_model self st dl)
                epoch rank ws peers w) as (S2 & S3 & S1).
    unfold epochs_run, saves_of in *.
    rewrite !filter_app, !omap_app, B1, B2, B3, S2.
    split; [destruct (MASTER self); reflexivity|].
    split; [destruct (MASTER self); cbn [app omap list_omap]; exact S3|].
    destruct ((validate_and_save_io _ _ _ _ _ _ _).2) as [e|s]; [exact I|].
    destruct S1 as [-> _]. destruct (MASTER self); reflexivity.
Qed.
End EpochShape.

(** ** Epochs, synchronization points and files of a run *)

Section RunShape.
Context {SO : ScoreOps} {CO : Collaborators}.

Lemma replay_saves_app (s1 s2 : list (string * checkpoint)) fs :
  replay_saves (s1 ++ s2) fs = replay_saves s2 (replay_saves s1 fs).
Proof. unfold replay_saves. apply foldl_app. Qed.

Lemma stop_flag_patience_zero helper self epoch rank ws peers w :
  patience (t_args self) = 0 ->
  (validate_and_save helper self epoch rank ws peers w).2 = false.
Proof.
  intros Hp. rewrite validate_and_save_unfold. cbn [snd].
  rewrite checkpoint_decision_unfold. cbn [snd]. rewrite Hp. reflexivity.
Qed.

Lemma train_epoch_patience_zero helper self epoch rank ws peers w self' stop :
  (train_epoch helper self epoch rank ws peers w).2 = inr (self', stop) ->
  patience (t_args self) = 0 -> stop = false.
Proof.
  intros Hr Hz.
  pose proof (train_epoch_cases helper self epoch rank ws peers w) as Hc.
  cbn zeta in Hc.
  set (dl := loader_set_epoch epoch (train_loader self)) in *.
  destruct (iter_loader dl) as [e|loader]; [rewrite Hc in Hr; discriminate|].
  destruct ((train_batches _ _ _ _ _ _).2) as [e|st]; [rewrite Hc in Hr; discriminate|].
  destruct (validate_and_save_io_projections helper (with_model self st dl)
              epoch rank ws peers w) as (_ & _ & Hs).
  rewrite Hc in Hr. cbn [snd] in Hr.
  destruct ((validate_and_save_io _ _ _ _ _ _ _).2) as [e|s]; [discriminate|].
  injection Hr as _ <-. destruct Hs as [_ ->].
  apply stop_flag_patience_zero. exact Hz.
Qed.

Lemma train_epochs_projections helper rank ws peers epochs :
  forall self w,
    let r := train_epochs helper epochs self rank ws peers w in
    (exists k, epochs_run r.1.1 = take k epochs)
    /\ files r.1.2 = replay_saves (saves_of r.1.1) (files w)
    /\ (r.2 = None ->
        filter (fun e => is_sync_point e = true) r.1.1
        = flat_map (fun _ => epoch_sync_points) (epochs_run r.1.1))
    /\ (r.2 = None -> patience (t_args self) = 0 ->
        epochs_run r.1.1 = until_break (n_epochs (t_args self)) epochs).
Proof.
  induction epochs as [|epoch rest IH]; intros self w; cbn [train_epochs].
  - cbn. repeat split; auto. exists 0%nat. reflexivity.
  - pose proof (train_epoch_projections helper self epoch rank ws (peers epoch) w) as Hp.
    pose proof (train_epoch_inv helper self epoch rank ws (peers epoch) w) as Hinv.
    pose proof (train_epoch_patience_zero helper self epoch rank ws (peers epoch) w)
      as Hpz.
    cbn zeta in Hp, Hinv.
    destruct (train_epoch helper self epoch rank ws (peers epoch) w)
      as [[ev w'] [e|[self' stop]]] eqn:Hte; cbn [fst snd] in *.
    + destruct Hp as (E & F & _). repeat split; try discriminate; [|exact F].
      exists 1%nat. rewrite E. destruct rest; reflexivity.
    + destruct Hp as (E & F & Sy). destruct Hinv as (_ & _ & _ & Ha & _).
      assert (Hstop : patience (t_args self) = 0 -> stop = false).
      { intros Hz. exact (Hpz self' stop eq_refl Hz). }
      destruct stop; cbn [orb fst snd].
      * repeat split; auto.
        -- exists 1%nat. rewrite E. destruct rest; reflexivity.
        -- intros _. rewrite Sy, E. reflexivity.
        -- intros _ Hz. specialize (Hstop Hz). discriminate.
      * destruct (Z.eqb_spec epoch (n_epochs (t_args self))) as [He|He]; cbn [fst snd].
        -- repeat split; auto.
           ++ exists 1%nat. rewrite E. destruct rest; reflexivity.
           ++ intros _. rewrite Sy, E. reflexivity.
           ++ intros _ _. rewrite E. cbn [until_break].
              rewrite <- He, Z.eqb_refl. reflexivity.
        -- specialize (IH self' w'). cbn zeta in IH.
           destruct (train_epochs helper rest self' rank ws peers w')
             as [[ev' w''] r]. cbn [fst snd] in *.
           destruct IH as ((k & Hk) & F' & S' & Z').
           unfold epochs_run, saves_of in *.
           rewrite !omap_app, !filter_app, E, replay_saves_app, <- F.
           repeat split.
           ++ exists (S k). cbn [app take]. rewrite Hk. reflexivity.
           ++ exact F'.
           ++ intros Hr. rewrite Sy, (S' Hr). reflexivity.
           ++ intros Hr Hz. cbn [app until_break].
              rewrite (Z' Hr) by (rewrite Ha; exact Hz).
              rewrite Ha. destruct (Z.eqb_spec epoch (n_epochs (t_args self)));
                [contradiction|reflexivity].
Qed.

Lemma until_break_seq (n : Z) (len : nat) :
  forall s : nat, Z.of_nat (s + len) <= n ->
    until_break n (map (fun i => 1 + Z.of_nat i) (seq s len))
    = map (fun i => 1 + Z.of_nat i) (seq s len).
Proof.
  induction len as [|len IH]; intros s Hs; [reflexivity|].
  cbn [seq map until_break].
  destruct (Z.eqb_spec (1 + Z.of_nat s) n) as [E|E].
  - destruct len; [reflexivity|lia].
  - f_equal. apply IH. lia.
Qed.

Lemma until_break_range (n : Z) :
  until_break n (py_range (start_epoch + 1) (n + 1)) = py_range (start_epoch + 1) (n + 1).
Proof.
  unfold py_range, start_epoch. change (0 + 1) with 1.
  replace (n + 1 - 1) with n by lia.
  destruct (Z.to_nat n) as [|len] eqn:E; [reflexivity|].
  rewrite <- E. apply until_break_seq. lia.
Qed.

(** The trace and the result of [train], by cases on the loaders and on
    the outcome of the epoch loop. *)
Lemma train_cases helper a dbg rank ws peers w :
  let init := (if (rank =? ws - 1) && negb dbg then [EvWandbInit] else [])
                ++ [EvLogInfo LogMasterPort; EvInitProcessGroup rank ws; EvWrapDDP rank]
                ++ (if rank =? ws - 1 then [EvLogInfo LogNumParams] else []) in
  match define_dataloader a rank ws with
  | inl e => train helper a dbg rank ws peers w = (init, w, e)
  | inr (tl, vl) =>
      let self := {| t_args := a; MASTER := rank =? ws - 1; debugger := dbg;
                     model := build_model rank; wrapper := DistributedW;
                     train_loader := tl; valid_loader := vl |} in
      let r := train_epochs helper (py_range (start_epoch + 1) (n_epochs a + 1))
                            self rank ws peers w in
      train helper a dbg rank ws peers w
      = match r.2 with
        | Some e => (init ++ r.1.1, r.1.2, e)
        | None => (init ++ r.1.1 ++ teardown, r.1.2, SystemExit exit_message)
        end
  end.
Proof.
  cbn zeta. unfold train.
  destruct (define_dataloader a rank ws) as [e|[tl vl]]; [reflexivity|].
  destruct (train_epochs _ _ _ _ _ _ _) as [[ev w'] [e|]]; reflexivity.
Qed.

Lemma init_projections (rank ws : Z) (dbg : bool) :
  let init := (if (rank =? ws - 1) && negb dbg then [EvWandbInit] else [])
                ++ [EvLogInfo LogMasterPort; EvInitProcessGroup rank ws; EvWrapDDP rank]
                ++ (if rank =? ws - 1 then [EvLogInfo LogNumParams] else []) in
  filter (fun e => is_sync_point e = true) init = []
  /\ epochs_run init = [] /\ saves_of init = [].
Proof.
  cbn zeta. destruct (rank =? ws - 1), dbg; repeat split; reflexivity.
Qed.

(** The projections of a whole run. *)
Lemma train_projections helper a dbg rank ws peers w :
  let r := train helper a dbg rank ws peers w in
  (exists k, epochs_run r.1.1 = take k (py_range (start_epoch + 1) (n_epochs a + 1)))
  /\ files r.1.2 = replay_saves (saves_of r.1.1) (files w)
  /\ (r.2 = SystemExit exit_message ->
      filter (fun e => is_sync_point e = true) r.1.1
      = flat_map (fun _ => epoch_sync_points) (epochs_run r.1.1))
  /\ (r.2 = SystemExit exit_message -> patience a = 0 ->
      epochs_run r.1.1 = py_range (start_epoch + 1) (n_epochs a + 1)).
Proof.
  pose proof (train_cases helper a dbg rank ws peers w) as Hc.
  pose proof (define_dataloader_error a rank ws) as Hde.
  destruct (init_projections rank ws dbg) as (I1 & I2 & I3).
  cbn zeta in *.
  set (init := (if (rank =? ws - 1) && negb dbg then [EvWandbInit] else [])
                 ++ [EvLogInfo LogMasterPort; EvInitProcessGroup rank ws; EvWrapDDP rank]
                 ++ (if rank =? ws - 1 then [EvLogInfo LogNumParams] else [])) in *.
  clearbody init.
  destruct (define_dataloader a rank ws) as [e|[tl vl]].
  - rewrite Hc. cbn [fst snd]. rewrite (Hde e eq_refl).
    repeat split; try discriminate.
    + exists 0%nat. rewrite I2. reflexivity.
    + rewrite I3. reflexivity.
  - match type of Hc with context [train_epochs helper ?es ?self rank ws peers w] =>
      pose proof (train_epochs_projections helper rank ws peers es self w) as Hp;
      pose proof (train_epochs_inv helper rank ws peers es self w) as Hinv;
      destruct (train_epochs helper es self rank ws peers w) as [[ev w'] [e|]] end;
      cbn [fst snd t_args] in *; rewrite Hc; cbn [fst snd];
      destruct Hp as (Hk & Hf & Hs & Hz); destruct Hinv as (_ & _ & _ & Herr);
      unfold epochs_run, saves_of, teardown in *;
      rewrite ?omap_app, ?filter_app, I1, I2, I3; cbn [app].
    + assert (Hne : e <> SystemExit exit_message)
        by (destruct (Herr e eq_refl) as [->|[->|[->| ->]]]; discriminate).
      split; [exact Hk|]. split; [exact Hf|]. split; intros Hx; contradiction.
    + cbn [omap list_omap filter]. rewrite !app_nil_r.
      repeat split; auto.
      intros _ Hp0. rewrite (Hz eq_refl Hp0). apply until_break_range.
Qed.

Lemma train_save_events helper a dbg rank ws peers w path c :
  EvTorchSave path c ∈ (train helper a dbg rank ws peers w).1.1 ->
  rank = ws - 1 /\ path = checkpoint_path a /\ args_f c = a.
Proof.
  intros Hin.
  destruct (train_shape helper a dbg rank ws peers w) as ((pre & Hpre & Hcase) & _).
  assert (Hin' : EvTorchSave path c ∈ pre).
  { destruct Hcase as [[_ Heq]|[_ Heq]]; rewrite Heq in Hin; [|exact Hin].
    revert Hin. in_trace. }
  rewrite Forall_forall in Hpre. destruct (Hpre _ Hin') as (Hm & Hp & Ha).
  apply Z.eqb_eq in Hm. auto.
Qed.

(** X2. [train] begins the epochs 1, 2, ... in order and never one beyond
    [n_epochs]; when patience is 0 a run that reaches its [sys.exit] has
    gone through all the [n_epochs] epochs; when [n_epochs] is not positive
    no epoch is begun at all. *)
Theorem epochs_of_a_run (helper : stopper) (a : Args) (dbg : bool)
    (rank ws : Z) (peers : Z -> Z -> list score) (w : world) :
  let r := train helper a dbg rank ws peers w in
  (exists k, epochs_run r.1.1 = take k (py_range 1 (n_epochs a + 1)))
  /\ (patience a = 0 -> r.2 = SystemExit exit_message ->
      epochs_run r.1.1 = py_range 1 (n_epochs a + 1)
      /\ length (epochs_run r.1.1) = Z.to_nat (n_epochs a))
  /\ (n_epochs a <= 0 -> epochs_run r.1.1 = []).
Proof.
  destruct (train_projections helper a dbg rank ws peers w) as (Hk & _ & _ & Hz).
  cbn zeta in *. change (start_epoch + 1) with 1 in *.
  split; [exact Hk|]. split.
  - intros Hp Hr. rewrite (Hz Hr Hp). split; [reflexivity|].
    unfold py_range. rewrite length_map, length_seq. f_equal. lia.
  - intros Hn. destruct Hk as [k Hk]. rewrite Hk. unfold py_range.
    replace (Z.to_nat (n_epochs a + 1 - 1)) with 0%nat by lia.
    cbn. apply take_nil.
Qed.

(** X3. A run of [train] that reaches its [sys.exit] has gone, in each
    epoch it began, through the same five synchronization points (barrier
    and all-gather after training, barrier and all-gather in [validate],
    barrier before the save), whatever the worker's rank, its role, the
    debugger flag and the save decisions. *)
Theorem same_sync_points_every_epoch (helper : stopper) (a : Args) (dbg : bool)
    (rank ws : Z) (peers : Z -> Z -> list score) (w : world) :
  let r := train helper a dbg rank ws peers w in
  r.2 = SystemExit exit_message ->
  filter (fun e => is_sync_point e = true) r.1.1
  = flat_map (fun _ => [EvBarrier; EvAllGather; EvBarrier; EvAllGather; EvBarrier])
             (epochs_run r.1.1)
  /\ count_events is_sync_point r.1.1 = (5 * length (epochs_run r.1.1))%nat.
Proof.
  intros r Hr.
  destruct (train_projections helper a dbg rank ws peers w) as (_ & _ & Hs & _).
  specialize (Hs Hr). fold r in Hs. split; [exact Hs|].
  unfold count_events. rewrite Hs. unfold epoch_sync_points.
  clear Hs. induction (epochs_run r.1.1) as [|e l IH]; [reflexivity|].
  cbn [flat_map]. rewrite length_app, IH. cbn [length]. lia.
Qed.

Lemma replay_saves_frame (path : string) (ss : list (string * checkpoint)) :
  Forall (fun pc => pc.1 = path) ss ->
  forall fs p, p <> path -> replay_saves ss fs !! p = fs !! p.
Proof.
  induction 1 as [|pc ss Hpc _ IH]; intros fs p Hp; [reflexivity|].
  change (replay_saves (pc :: ss) fs) with (replay_saves ss (<[pc.1 := pc.2]> fs)).
  rewrite IH by exact Hp. apply lookup_insert_ne. rewrite Hpc. congruence.
Qed.

Lemma train_saves_path helper a dbg rank ws peers w :
  Forall (fun pc => pc.1 = checkpoint_path a)
         (saves_of (train helper a dbg rank ws peers w).1.1).
Proof.
  apply Forall_forall. intros [p c] Hin.
  apply list_elem_of_omap in Hin. destruct Hin as (e & He & Hf).
  destruct e; try discriminate. injection Hf as -> ->.
  apply train_save_events in He. cbn. tauto.
Qed.

(** X4. The checkpoint directory after a run of [train] is the directory
    before it with the [torch.save] calls of the run replayed in order: no
    file other than the run's checkpoint path is created, changed or
    removed; without a save the directory is untouched; otherwise the file
    at the checkpoint path is the checkpoint of the last save. *)
Theorem files_after_run (helper : stopper) (a : Args) (dbg : bool)
    (rank ws : Z) (peers : Z -> Z -> list score) (w : world) :
  let r := train helper a dbg rank ws peers w in
  files r.1.2 = replay_saves (saves_of r.1.1) (files w)
  /\ (forall p, p <> checkpoint_path a -> files r.1.2 !! p = files w !! p)
  /\ (saves_of r.1.1 = [] -> files r.1.2 = files w)
  /\ (forall ss p c, saves_of r.1.1 = ss ++ [(p, c)] ->
                     files r.1.2 !! checkpoint_path a = Some c).
Proof.
  intros r.
  destruct (train_projections helper a dbg rank ws peers w) as (_ & Hf & _).
  pose proof (train_saves_path helper a dbg rank ws peers w) as Hpath.
  fold r in Hf, Hpath.
  split; [exact Hf|]. split; [|split].
  - intros p Hp. rewrite Hf. apply (replay_saves_frame _ _ Hpath). exact Hp.
  - intros Hnil. rewrite Hf, Hnil. reflexivity.
  - intros ss p c Hss. rewrite Hf, Hss, replay_saves_app.
    rewrite Hss in Hpath. apply Forall_app in Hpath. destruct Hpath as [_ Hlast].
    apply Forall_cons in Hlast. destruct Hlast as [Hp _]. cbn in Hp. subst p.
    cbn. apply lookup_insert_eq.
Qed.
End RunShape.

(** ** The checkpoint file *)

Section CheckpointFile.
Context {SO : ScoreOps} {CO : Collaborators}.

(** C6 (as the code has it). Whenever a checkpoint is written it goes to
    the path [os.path.join(save_dir, exp_name_save_prefix_best.pt)], which
    does not depend on the epoch: an experiment name with a leading
    separator makes it the file name alone, outside [save_dir]; otherwise
    a directory name that is empty or ends with a separator is followed
    directly by the file name, and any other directory name by a separator
    and the file name.  All the writes of a run go to that one path, so
    that a run adds at most one file to the directory, rewriting it on
    each save.  The content has exactly the four fields: the state dict of
    the model (of the bare module under [DataParallel], with every key
    prefixed by [module.] under the distributed wrapper), the optimizer's
    state dict, the current epoch and the configuration. *)
Theorem checkpoint_single_path_four_fields :
  let file := fun a : Args =>
    (exp_name a +:+ "_" +:+ save_prefix a +:+ "_best.pt")%string in
  let joined := fun (a : Args) (path : string) =>
    ((exists rest, exp_name a = ("/" +:+ rest)%string) -> path = file a)
    /\ ((forall rest, exp_name a <> ("/" +:+ rest)%string) ->
        ((save_dir a = ""%string \/ exists pre, save_dir a = (pre +:+ "/")%string) ->
         path = (save_dir a +:+ file a)%string)
        /\ (save_dir a <> ""%string ->
            (forall pre, save_dir a <> (pre +:+ "/")%string) ->
            path = (save_dir a +:+ "/" +:+ file a)%string)) in
  (forall (helper : stopper) self epoch rank ws peers w path c,
      EvTorchSave path c ∈ (validate_and_save helper self epoch rank ws peers w).1.1 ->
      joined (t_args self) path
      /\ model_state_dict c
         = match wrapper self with
           | DistributedW =>
               map (fun kv => ("module." +:+ kv.1, kv.2)) (module_state_dict (model self))
           | DataParallelW | Bare => module_state_dict (model self)
           end
      /\ optimizer_state_dict_f c = optimizer_state_dict (model self)
      /\ epochs c = epoch
      /\ args_f c = t_args self
      /\ files (validate_and_save helper self epoch rank ws peers w).1.2
         = <[path := c]> (files w))
  /\ (forall (helper : stopper) a dbg rank ws peers w,
         let r := train helper a dbg rank ws peers w in
         (forall path c,
             EvTorchSave path c ∈ r.1.1 ->
             joined a path /\ args_f c = a
             /\ dom (files r.1.2) ⊆ dom (files w) ∪ {[path]})
         /\ (forall path c path' c',
                EvTorchSave path c ∈ r.1.1 -> EvTorchSave path' c' ∈ r.1.1 ->
                path' = path)
         /\ ((forall path c, EvTorchSave path c ∉ r.1.1) -> files r.1.2 = files w)).
Proof.
  intros file joined.
  assert (Hjoined : forall a, joined a (checkpoint_path a)).
  { intros a. exact (checkpoint_path_cases a). }
  split.
  - intros helper self epoch rank ws peers w path c Hin.
    apply validate_and_save_save in Hin.
    pose proof (decision_save_inv _ _ _ _ _ _ _ Hin) as (Hm & Hcond & -> & ->).
    split; [apply Hjoined|].
    split; [cbn [make_checkpoint model_state_dict saved_state_dict];
            destruct (wrapper self); reflexivity|].
    split; [reflexivity|]. split; [reflexivity|]. split; [reflexivity|].
    rewrite validate_and_save_unfold. cbn [fst snd].
    rewrite checkpoint_decision_unfold. cbn [fst snd files].
    rewrite Hm, Hcond. reflexivity.
  - intros helper a dbg rank ws peers w r. subst r.
    destruct (train_shape helper a dbg rank ws peers w)
      as ((pre & Hpre & Hcase) & Hdom & _).
    assert (Hsave : forall path c,
              EvTorchSave path c ∈ (train helper a dbg rank ws peers w).1.1 ->
              path = checkpoint_path a /\ args_f c = a).
    { intros path c Hin.
      assert (Hin' : EvTorchSave path c ∈ pre).
      { destruct Hcase as [[_ Heq]|[_ Heq]]; rewrite Heq in Hin; [|exact Hin].
        revert Hin. in_trace. }
      destruct (in_loop_trace_save _ _ _ _ _ Hpre Hin') as (_ & Hp & Ha). auto. }
    split; [|split].
    + intros path c Hin. destruct (Hsave path c Hin) as [-> Ha].
      split; [apply Hjoined|]. split; [exact Ha|exact Hdom].
    + intros path c path' c' Hin Hin'.
      destruct (Hsave path c Hin) as [-> _]. destruct (Hsave path' c' Hin') as [-> _].
      reflexivity.
    + intros Hnone.
      destruct (train_projections helper a dbg rank ws peers w) as (_ & Hf & _).
      rewrite Hf.
      replace (saves_of (train helper a dbg rank ws peers w).1.1) with
        (@nil (string * checkpoint)); [reflexivity|].
      symmetry. apply omap_none. apply Forall_forall. intros e He.
      destruct e; try reflexivity. exfalso. exact (Hnone _ _ He).
Qed.
End CheckpointFile.

(** ** Roles, order of the save, content of the checkpoint *)

Section Roles.
Context {SO : ScoreOps} {CO : Collaborators}.

Lemma train_batches_roles master dbg wr lo hi K loader :
  forall idx st,
    Forall (epoch_event_ok master dbg wr lo hi)
           (train_batches K master dbg idx loader st).1.
Proof.
  induction loader as [|g rest IH]; intros idx st; cbn [train_batches].
  - constructor.
  - assert (Hs : Forall (epoch_event_ok master dbg wr lo hi)
                        (train_step K master dbg idx g st).1).
    { unfold train_step. destruct (K =? 0); cbn [fst]; [constructor|].
      destruct (defers_sync K idx), master, dbg, (applies_update K idx);
        repeat constructor. }
    destruct (train_step K master dbg idx g st) as [ev [e|[st' l]]]; cbn [fst] in *.
    + exact Hs.
    + specialize (IH (S idx) st').
      destruct (train_batches K master dbg (S idx) rest st') as [ev' r].
      cbn [fst] in *. apply Forall_app; split; assumption.
Qed.

Lemma validate_roles self epoch rank ws peers lo hi :
  Forall (epoch_event_ok (MASTER self) (debugger self) (wrapper self) lo hi)
         (validate self epoch rank ws peers).1.
Proof.
  unfold validate. cbn [fst]. rewrite !Forall_app. repeat split.
  - repeat constructor.
  - induction (local_valid_losses self) as [|x l IH]; cbn [flat_map].
    + constructor.
    + apply Forall_app. split; [repeat constructor|exact IH].
  - repeat constructor.
  - destruct (MASTER self), (debugger self); repeat constructor.
Qed.

Lemma validate_and_save_roles helper self epoch rank ws peers w lo hi :
  lo <= epoch <= hi ->
  Forall (epoch_event_ok (MASTER self) (debugger self) (wrapper self) lo hi)
         (validate_and_save helper self epoch rank ws peers w).1.1.
Proof.
  intros He. rewrite validate_and_save_unfold. cbn [fst]. rewrite !Forall_app.
  split; [repeat constructor|]. split; [apply validate_roles|].
  rewrite checkpoint_decision_unfold. cbn [fst]. apply Forall_app. split.
  - repeat constructor.
  - destruct (MASTER self); [|constructor].
    destruct (save_condition _ _); repeat constructor; cbn; try lia.
    exists (model self). split; reflexivity.
Qed.

Lemma validate_and_save_io_roles helper self epoch rank ws peers w lo hi :
  lo <= epoch <= hi ->
  Forall (epoch_event_ok (MASTER self) (debugger self) (wrapper self) lo hi)
         (validate_and_save_io helper self epoch rank ws peers w).1.1.
Proof.
  intros He.
  destruct (validate_and_save_io_spec helper self epoch rank ws peers w)
    as ((rest & Hpre) & _).
  pose proof (validate_and_save_roles helper self epoch rank ws peers w lo hi He) as Hr.
  cbn zeta in *. rewrite Hpre in Hr. apply Forall_app in Hr. tauto.
Qed.

Lemma train_epoch_roles helper self epoch rank ws peers w lo hi :
  lo <= epoch <= hi ->
  Forall (epoch_event_ok (MASTER self) (debugger self) (wrapper self) lo hi)
         (train_epoch helper self epoch rank ws peers w).1.1.
Proof.
  intros He.
  pose proof (train_epoch_cases helper self epoch rank ws peers w) as Hc.
  cbn zeta in Hc.
  set (dl := loader_set_epoch epoch (train_loader self)) in *.
  destruct (iter_loader dl) as [e|loader].
  { rewrite Hc. cbn [fst]. repeat constructor; cbn; lia. }
  pose proof (train_batches_roles (MASTER self) (debugger self) (wrapper self) lo hi
                (accumulation (t_args self)) loader 0 (model self)) as Hb.
  destruct ((train_batches _ _ _ _ _ _).2) as [e|st]; rewrite Hc; cbn [fst].
  - apply Forall_app. split; [repeat constructor; cbn; lia|exact Hb].
  - apply Forall_app. split; [repeat constructor; cbn; lia|].
    apply Forall_app. split; [exact Hb|].
    apply Forall_app. split.
    + destruct (MASTER self); repeat constructor.
    + exact (validate_and_save_io_roles helper (with_model self st dl)
               epoch rank ws peers w lo hi He).
Qed.

Lemma train_epochs_roles helper rank ws peers lo hi epochs :
  Forall (fun e => lo <= e <= hi) epochs ->
  forall self w,
    Forall (epoch_event_ok (MASTER self) (debugger self) (wrapper self) lo hi)
           (train_epochs helper epochs self rank ws peers w).1.1.
Proof.
  induction 1 as [|epoch rest He _ IH]; intros self w; cbn [train_epochs].
  - constructor.
  - pose proof (train_epoch_roles helper self epoch rank ws (peers epoch) w lo hi He) as Hr.
    pose proof (train_epoch_inv helper self epoch rank ws (peers epoch) w) as Hinv.
    cbn zeta in Hinv.
    destruct (train_epoch helper self epoch rank ws (peers epoch) w)
      as [[ev w'] [e|[self' stop]]]; cbn [fst snd] in *; [exact Hr|].
    destruct Hinv as (_ & _ & _ & _ & Hm & Hd & Hw & _).
    destruct (stop || (epoch =? n_epochs (t_args self))); cbn [fst]; [exact Hr|].
    specialize (IH self' w'). rewrite Hm, Hd, Hw in IH.
    destruct (train_epochs helper rest self' rank ws peers w') as [[ev' w''] r].
    cbn [fst] in *. apply Forall_app. split; assumption.
Qed.

Lemma py_range_bounds (n : Z) :
  Forall (fun e => 1 <= e <= n) (py_range (start_epoch + 1) (n + 1)).
Proof.
  unfold py_range, start_epoch. apply Forall_forall. intros e He.
  apply list_elem_of_fmap in He. destruct He as (i & -> & Hi).
  apply elem_of_seq in Hi. lia.
Qed.

(** Every event of a run of [train] respects the worker's role. *)
Lemma train_roles helper a dbg rank ws peers w :
  Forall (epoch_event_ok (rank =? ws - 1) dbg DistributedW 1 (n_epochs a))
         (train helper a dbg rank ws peers w).1.1.
Proof.
  pose proof (train_cases helper a dbg rank ws peers w) as Hc. cbn zeta in Hc.
  assert (Hinit : Forall (epoch_event_ok (rank =? ws - 1) dbg DistributedW 1 (n_epochs a))
            ((if (rank =? ws - 1) && negb dbg then [EvWandbInit] else [])
               ++ [EvLogInfo LogMasterPort; EvInitProcessGroup rank ws; EvWrapDDP rank]
               ++ (if rank =? ws - 1 then [EvLogInfo LogNumParams] else []))).
  { destruct (rank =? ws - 1), dbg; repeat constructor. }
  destruct (define_dataloader a rank ws) as [e|[tl vl]].
  - rewrite Hc. exact Hinit.
  - match type of Hc with context [train_epochs helper ?es ?self rank ws peers w] =>
      pose proof (train_epochs_roles helper rank ws peers 1 (n_epochs a) es
                    (py_range_bounds (n_epochs a)) self w) as Hr;
      destruct (train_epochs helper es self rank ws peers w) as [[ev w'] [e|]] end;
      cbn [fst snd MASTER debugger wrapper] in *; rewrite Hc; cbn [fst].
    + apply Forall_app. split; assumption.
    + apply Forall_app. split; [exact Hinit|].
      apply Forall_app. split; [exact Hr|]. repeat constructor.
Qed.

(** X5. A worker that is not the coordinator never calls the experiment
    tracker, never logs an epoch summary and never writes a checkpoint; under
    a debugger no worker calls the tracker. *)
Theorem non_coordinator_is_silent (helper : stopper) (a : Args) (dbg : bool)
    (rank ws : Z) (peers : Z -> Z -> list score) (w : world) :
  let tr := (train helper a dbg rank ws peers w).1.1 in
  (rank <> ws - 1 ->
   Forall (fun e => is_tracker e = false /\ is_summary e = false /\ is_save e = false) tr)
  /\ (dbg = true -> Forall (fun e => is_tracker e = false) tr).
Proof.
  intros tr. pose proof (train_roles helper a dbg rank ws peers w) as Hr. fold tr in Hr.
  split.
  - intros Hne. apply Z.eqb_neq in Hne. rewrite Hne in Hr.
    eapply Forall_impl; [exact Hr|]. intros e He.
    destruct e as [| | | |m| | | | | | | | | | | | | | | | | |];
      try destruct m; cbn in *; repeat split; try reflexivity;
      try (destruct He; discriminate); try discriminate.
  - intros ->. eapply Forall_impl; [exact Hr|]. intros e He.
    destruct e; cbn in *; try reflexivity; destruct He; discriminate.
Qed.

(** X6. Every checkpoint that [train] writes holds the state dict of the
    distributed wrapper, so that each key starts with [module.], together
    with the optimizer's state dict of the same replica; its epoch field is
    between 1 and [n_epochs]. *)
Theorem checkpoint_of_wrapped_model (helper : stopper) (a : Args) (dbg : bool)
    (rank ws : Z) (peers : Z -> Z -> list score) (w : world)
    (path : string) (c : checkpoint) :
  EvTorchSave path c ∈ (train helper a dbg rank ws peers w).1.1 ->
  1 <= epochs c <= n_epochs a
  /\ (exists st,
        model_state_dict c
        = map (fun kv => ("module." +:+ kv.1, kv.2)) (module_state_dict st)
        /\ optimizer_state_dict_f c = optimizer_state_dict st)
  /\ Forall (fun kv => exists k, kv.1 = "module." +:+ k) (model_state_dict c).
Proof.
  intros Hin.
  pose proof (train_roles helper a dbg rank ws peers w) as Hr.
  rewrite Forall_forall in Hr. destruct (Hr _ Hin) as (_ & He & st & Hm & Ho).
  split; [exact He|]. split; [exists st; auto|].
  rewrite Hm. cbn [saved_state_dict]. apply Forall_forall. intros kv Hkv.
  apply list_elem_of_fmap in Hkv. destruct Hkv as (kv' & -> & _).
  exists kv'.1. reflexivity.
Qed.

(** X7. Within [validate_and_save] the checkpoint is written only after
    the barrier that follows the stop decision, and neither a barrier nor an
    all-gather follows the write before the call returns. *)
Theorem save_follows_last_barrier (helper : stopper) (self : trainer)
    (epoch rank ws : Z) (peers : Z -> list score) (w : world) :
  exists pre post,
    (validate_and_save helper self epoch rank ws peers w).1.1
    = pre ++ [EvBarrier] ++ post
    /\ Forall (fun e => is_save e = false) pre
    /\ Forall (fun e => is_sync_point e = false) post.
Proof.
  rewrite validate_and_save_unfold. cbn [fst].
  destruct (decision_projections helper self epoch
              (global_valid_loss self rank ws peers) w)
    as (_ & _ & _ & _ & post & Hd & Hpost).
  exists ([EvMakedirs (save_dir (t_args self))]
            ++ (validate self epoch rank ws peers).1
            ++ [EvShouldStopEarly (patience (t_args self))
                                  (global_valid_loss self rank ws peers) Lower]),
         post.
  split; [rewrite Hd, <- !app_assoc; reflexivity|]. split; [|exact Hpost].
  rewrite !Forall_app. split; [repeat constructor|]. split; [|repeat constructor].
  apply Forall_forall. intros e He. apply validate_no_save in He. tauto.
Qed.
End Roles.

(** ** Degenerate configurations *)

Section Degenerate.
Context {SO : ScoreOps} {CO : Collaborators}.

Lemma define_dataloader_inv a rank ws tl vl :
  define_dataloader a rank ws = inr (tl, vl) ->
  0 <= rank < ws
  /\ tl = {| dl_sampler := {| ds_len := dataset_len Train; num_replicas := ws;
                              ds_rank := rank; ds_epoch := 0; ds_seed := seed a;
                              ds_drop_last := true |};
             batch_size := train_bsz a |}
  /\ vl = {| dl_sampler := {| ds_len := dataset_len Valid; num_replicas := ws;
                              ds_rank := rank; ds_epoch := 0; ds_seed := seed a;
                              ds_drop_last := false |};
             batch_size := eval_bsz a |}.
Proof.
  unfold define_dataloader.
  destruct (get_dataloader a Train rank ws) as [e|[s dl]] eqn:Ht; [discriminate|].
  destruct (get_dataloader a Valid rank ws) as [e|[s' dl']] eqn:Hv; [discriminate|].
  intros [= <- <-].
  apply get_dataloader_inv in Ht, Hv.
  destruct Ht as (Hr & _ & -> & -> & _). destruct Hv as (_ & _ & -> & -> & _). auto.
Qed.

Lemma seed_ok_spec (s : Z) : seed_ok s = true <-> - 2 ^ 63 <= s <= 2 ^ 64 - 1.
Proof. unfold seed_ok. rewrite andb_true_iff, !Z.leb_le. tauto. Qed.

Lemma batches_nil {A} (b : nat) (l : list A) : batches b l = [] <-> l = [].
Proof.
  unfold batches. destruct l as [|x l]; cbn; split; congruence.
Qed.

(** The number of samples of a training shard, in any epoch. *)
Lemma train_shard_length a rank ws epoch :
  0 <= rank < ws ->
  length (sampler_iter
            (set_epoch epoch
               {| ds_len := dataset_len Train; num_replicas := ws; ds_rank := rank;
                  ds_epoch := 0; ds_seed := seed a; ds_drop_last := true |}))
  = Z.to_nat (Z.of_nat (dataset_len Train) / ws).
Proof.
  intros Hr. rewrite sampler_iter_length by (cbn; lia).
  rewrite num_samples_drop by (cbn; (lia || reflexivity)). reflexivity.
Qed.

Lemma first_epoch (n : Z) :
  1 <= n -> exists rest, py_range (start_epoch + 1) (n + 1) = 1 :: rest.
Proof.
  intros Hn. unfold py_range, start_epoch. change (0 + 1) with 1.
  replace (n + 1 - 1) with n by lia.
  destruct (Z.to_nat n) as [|m] eqn:E; [lia|]. cbn [seq map]. eexists. reflexivity.
Qed.

(** X8. With an accumulation factor of 0, a worker whose loaders are
    built (a rank of the group, positive batch sizes, a seed that the
    generators accept at construction and in the first epoch) and whose
    training shard is not empty fails with [ZeroDivisionError] at the first
    step of the first epoch: no forward pass is made, no synchronization
    point is reached, nothing is saved, and the process group is never
    destroyed. *)
Theorem zero_accumulation_aborts (helper : stopper) (a : Args) (dbg : bool)
    (rank ws : Z) (peers : Z -> Z -> list score) (w : world) :
  accumulation a = 0 ->
  0 <= rank < ws -> 0 < train_bsz a -> 0 < eval_bsz a ->
  - 2 ^ 63 <= seed a -> seed a + 1 <= 2 ^ 64 - 1 ->
  1 <= n_epochs a ->
  ws <= Z.of_nat (dataset_len Train) ->
  let r := train helper a dbg rank ws peers w in
  r.2 = ZeroDivisionError
  /\ r.1.2 = w
  /\ epochs_run r.1.1 = [1]
  /\ Forall (fun e => is_destroy e = false /\ is_step_event e = false
                      /\ is_sync_point e = false /\ is_save e = false) r.1.1.
Proof.
  intros HK Hr Ht Hv Hs0 Hs1 Hn Hm r. subst r.
  pose proof (train_cases helper a dbg rank ws peers w) as Hc. cbn zeta in Hc.
  destruct (define_dataloader a rank ws) as [e|[tl vl]] eqn:Hdl.
  { destruct (define_dataloader_ok a rank ws Hr Ht Hv ltac:(lia)) as (? & ? & ?).
    congruence. }
  apply define_dataloader_inv in Hdl. destruct Hdl as (_ & -> & ->).
  destruct (first_epoch (n_epochs a) Hn) as [rest Hpr]. rewrite Hpr in Hc.
  cbn [train_epochs] in Hc.
  match type of Hc with context [train_epoch helper ?self 1 rank ws ?pp w] =>
    pose proof (train_epoch_cases helper self 1 rank ws pp w) as He end.
  cbn zeta in He. cbn [t_args MASTER debugger model train_loader] in He.
  unfold iter_loader in He at 1.
  cbn [loader_set_epoch set_epoch dl_sampler ds_seed ds_epoch] in He.
  rewrite (proj2 (seed_ok_spec (seed a + 1)) ltac:(lia)) in He.
  match type of He with context [loader_iter ?dl] =>
    assert (Hne : loader_iter dl <> []);
    [|destruct (loader_iter dl) as [|g gs]; [contradiction|]] end.
  { unfold loader_iter, loader_set_epoch. cbn [dl_sampler batch_size].
    rewrite batches_nil. intros Hnil.
    pose proof (train_shard_length a rank ws 1 Hr) as Hlen.
    rewrite Hnil in Hlen. cbn [length] in Hlen.
    assert (1 <= Z.of_nat (dataset_len Train) / ws)
      by (apply Z.div_le_lower_bound; lia).
    lia. }
  cbn [train_batches] in He. unfold train_step in He. rewrite HK in He.
  cbn [Z.eqb fst snd] in He. rewrite He in Hc. cbn [fst snd] in Hc.
  rewrite Hc. cbn [fst snd]. split; [reflexivity|]. split; [reflexivity|].
  destruct (rank =? ws - 1), dbg; cbn; split; try reflexivity; repeat constructor.
Qed.

Lemma validate_and_save_no_training helper self epoch rank ws peers w :
  Forall (fun e => is_backward e = false /\ is_optimizer_step e = false)
         (validate_and_save helper self epoch rank ws peers w).1.1.
Proof.
  rewrite validate_and_save_unfold. cbn [fst]. rewrite !Forall_app.
  split; [repeat constructor|]. split.
  - unfold validate. cbn [fst]. rewrite !Forall_app. repeat split.
    + repeat constructor.
    + induction (local_valid_losses self) as [|x l IH]; cbn [flat_map].
      * constructor.
      * apply Forall_app. split; [repeat constructor|exact IH].
    + repeat constructor.
    + destruct (MASTER self), (debugger self); repeat constructor.
  - rewrite checkpoint_decision_unfold. cbn [fst]. apply Forall_app. split.
    + repeat constructor.
    + destruct (MASTER self); [|constructor].
      destruct (save_condition _ _); repeat constructor.
Qed.

Lemma validate_and_save_io_no_training helper self epoch rank ws peers w :
  Forall (fun e => is_backward e = false /\ is_optimizer_step e = false)
         (validate_and_save_io helper self epoch rank ws peers w).1.1.
Proof.
  destruct (validate_and_save_io_spec helper self epoch rank ws peers w)
    as ((rest & Hpre) & _).
  pose proof (validate_and_save_no_training helper self epoch rank ws peers w) as Hr.
  cbn zeta in *. rewrite Hpre in Hr. apply Forall_app in Hr. tauto.
Qed.

(** The epoch loop of a worker whose training loader yields no batch. *)
Lemma train_epochs_idle helper rank ws peers epochs :
  forall self w,
    (forall e, loader_iter (loader_set_epoch e (train_loader self)) = []) ->
    let r := train_epochs helper epochs self rank ws peers w in
    r.2 <> Some ZeroDivisionError
    /\ Forall (fun e => is_backward e = false /\ is_optimizer_step e = false) r.1.1
    /\ match epochs with
       | [] => True
       | e :: _ => exists rest, epochs_run r.1.1 = e :: rest
       end.
Proof.
  induction epochs as [|epoch rest IH]; intros self w Hidle; cbn [train_epochs].
  - cbn. repeat split; [discriminate|constructor].
  - pose proof (train_epoch_cases helper self epoch rank ws (peers epoch) w) as Hc.
    cbn zeta in Hc.
    pose proof (iter_loader_inv (loader_set_epoch epoch (train_loader self))) as Hit.
    destruct (iter_loader (loader_set_epoch epoch (train_loader self))) as [e|loader].
    { rewrite Hc, Hit. cbn [fst snd]. split; [discriminate|].
      split; [repeat constructor|]. exists []. reflexivity. }
    rewrite Hit, (Hidle epoch) in Hc. cbn [train_batches fst snd] in Hc.
    rewrite Hc.
    match goal with |- context [validate_and_save_io helper ?s epoch rank ws ?pp w] =>
      pose proof (validate_and_save_io_no_training helper s epoch rank ws pp w) as Hv;
      pose proof (validate_and_save_io_projections helper s epoch rank ws pp w)
        as (Hvr & _ & _);
      pose proof (validate_and_save_io_spec helper s epoch rank ws pp w) as (_ & Hres);
      set (io := validate_and_save_io helper s epoch rank ws pp w) in *;
      set (self' := s) in * end.
    cbn zeta in Hvr.
    assert (Hhead : Forall (fun e => is_backward e = false /\ is_optimizer_step e = false)
              ([EvLogInfo (LogBeginEpoch epoch rank); EvSetEpoch epoch; EvModelTrain]
                 ++ [] ++ ([EvBarrier; EvAllGather]
                             ++ (if MASTER self then [EvLogInfo (LogTrainLoss epoch)]
                                 else []))
                 ++ io.1.1)).
    { rewrite !Forall_app. repeat split; try (repeat constructor); [|exact Hv].
      destruct (MASTER self); repeat constructor. }
    assert (Hrun : epochs_run
              ([EvLogInfo (LogBeginEpoch epoch rank); EvSetEpoch epoch; EvModelTrain]
                 ++ [] ++ ([EvBarrier; EvAllGather]
                             ++ (if MASTER self then [EvLogInfo (LogTrainLoss epoch)]
                                 else []))
                 ++ io.1.1) = [epoch]).
    { unfold epochs_run in *. rewrite !omap_app, Hvr.
      destruct (MASTER self); reflexivity. }
    destruct (io.2) as [e|stop]; cbn [fst snd].
    { split; [|split; [exact Hhead|exists []; exact Hrun]].
      destruct Hres as ([->|[->| ->]] & _); discriminate. }
    destruct (stop || (epoch =? n_epochs (t_args self))); cbn [fst snd].
    + split; [discriminate|]. split; [exact Hhead|]. exists []. exact Hrun.
    + assert (Hidle' : forall e, loader_iter (loader_set_epoch e (train_loader self')) = []).
      { intros e. subst self'. cbn [train_loader with_model]. exact (Hidle e). }
      specialize (IH self' io.1.2 Hidle'). cbn zeta in IH.
      destruct (train_epochs helper rest self' rank ws peers io.1.2) as [[ev' w''] r].
      cbn [fst snd] in *. destruct IH as (Hr & Hf & _).
      split; [exact Hr|]. split.
      * apply Forall_app. split; assumption.
      * unfold epochs_run in *. rewrite omap_app, Hrun. eexists. reflexivity.
Qed.

(** X9. When the training set has fewer items than there are workers, the
    drop policy leaves every worker with an empty training shard: a run of
    [train] makes no backward pass and no optimizer update in any epoch,
    and never fails with [ZeroDivisionError], whatever the accumulation
    factor, zero included; a worker whose loaders are built still begins
    its first epoch. *)
Theorem empty_training_shard_trains_nothing (helper : stopper) (a : Args)
    (dbg : bool) (rank ws : Z) (peers : Z -> Z -> list score) (w : world) :
  Z.of_nat (dataset_len Train) < ws ->
  let r := train helper a dbg rank ws peers w in
  r.2 <> ZeroDivisionError
  /\ Forall (fun e => is_backward e = false /\ is_optimizer_step e = false) r.1.1
  /\ (0 <= rank < ws -> 0 < train_bsz a -> 0 < eval_bsz a ->
      - 2 ^ 63 <= seed a <= 2 ^ 64 - 1 -> 1 <= n_epochs a ->
      exists rest, epochs_run r.1.1 = 1 :: rest).
Proof.
  intros Hm r. subst r.
  pose proof (train_cases helper a dbg rank ws peers w) as Hc. cbn zeta in Hc.
  destruct (init_projections rank ws dbg) as (_ & I2 & _). cbn zeta in I2.
  pose proof (define_dataloader_ok a rank ws) as Hok.
  pose proof (define_dataloader_error a rank ws) as Hde.
  set (init := (if (rank =? ws - 1) && negb dbg then [EvWandbInit] else [])
                 ++ [EvLogInfo LogMasterPort; EvInitProcessGroup rank ws; EvWrapDDP rank]
                 ++ (if rank =? ws - 1 then [EvLogInfo LogNumParams] else [])) in *.
  assert (Hinit : Forall (fun e => is_backward e = false /\ is_optimizer_step e = false)
                         init).
  { subst init. destruct (rank =? ws - 1), dbg; repeat constructor. }
  destruct (define_dataloader a rank ws) as [e|[tl vl]] eqn:Hdl.
  { rewrite Hc, (Hde e eq_refl). cbn [fst snd]. split; [discriminate|].
    split; [exact Hinit|].
    intros Hr Ht Hv Hs _. destruct (Hok Hr Ht Hv Hs) as (? & ? & ?). discriminate. }
  apply define_dataloader_inv in Hdl. destruct Hdl as (Hr & -> & ->).
  match type of Hc with context [train_epochs helper ?es ?self rank ws peers w] =>
    assert (Hidle : forall e, loader_iter (loader_set_epoch e (train_loader self)) = []);
    [|pose proof (train_epochs_idle helper rank ws peers es self w Hidle) as Hi;
      destruct (train_epochs helper es self rank ws peers w) as [[ev w'] res]] end.
  { intros e. unfold loader_iter, loader_set_epoch. cbn [train_loader dl_sampler batch_size].
    apply batches_nil. apply nil_length_inv.
    rewrite (train_shard_length a rank ws e Hr).
    rewrite Z.div_small by lia. reflexivity. }
  cbn zeta in Hi. cbn [fst snd] in *. destruct Hi as (Hres & Hf & Hrun).
  assert (Hepoch : 1 <= n_epochs a -> exists rest, epochs_run (init ++ ev) = 1 :: rest).
  { intros Hn. destruct (first_epoch (n_epochs a) Hn) as [rest Hpr].
    rewrite Hpr in Hrun. destruct Hrun as [rest' Hrun].
    unfold epochs_run in *. rewrite omap_app, I2, Hrun. cbn [app].
    eexists. reflexivity. }
  destruct res as [e|]; rewrite Hc; cbn [fst snd].
  - split; [congruence|]. split; [apply Forall_app; split; assumption|].
    intros _ _ _ _ Hn. exact (Hepoch Hn).
  - split; [discriminate|]. split.
    + rewrite !Forall_app. split; [exact Hinit|]. split; [exact Hf|repeat constructor].
    + intros _ _ _ _ Hn. destruct (Hepoch Hn) as [rest Hrest].
      rewrite app_assoc. unfold epochs_run in *. rewrite omap_app, Hrest.
      cbn [app]. eexists. reflexivity.
Qed.
End Degenerate.

(** ** Shards of the group *)

Section ShardSeparation.
Context {SO : ScoreOps} {CO : Collaborators}.

Lemma py_slice_elem {A} (l : list A) (start stop step : nat) (x : A) :
  x ∈ py_slice l start stop step -> exists k, l !! (start + k * step)%nat = Some x.
Proof.
  unfold py_slice. intros Hin. apply list_elem_of_omap in Hin.
  destruct Hin as (k & _ & Hk). eauto.
Qed.

Lemma NoDup_omap_inj {A B} (f : B -> option A) (ks : list B) :
  NoDup ks ->
  (forall k k' x, f k = Some x -> f k' = Some x -> k = k') ->
  NoDup (omap f ks).
Proof.
  intros Hnd Hinj. induction Hnd as [|k ks Hk _ IH]; [constructor|].
  cbn [omap list_omap]. destruct (f k) as [x|] eqn:Hf; [|exact IH].
  constructor; [|exact IH]. intros Hin.
  apply list_elem_of_omap in Hin. destruct Hin as (k' & Hk' & Hf').
  rewrite (Hinj k k' x Hf Hf') in Hk. contradiction.
Qed.

Lemma py_slice_NoDup {A} (l : list A) (start stop step : nat) :
  NoDup l -> (0 < step)%nat -> NoDup (py_slice l start stop step).
Proof.
  intros Hnd Hs. unfold py_slice. apply NoDup_omap_inj; [apply NoDup_seq|].
  intros k k' x Hk Hk'. pose proof (NoDup_lookup _ _ _ _ Hnd Hk Hk'). nia.
Qed.

Lemma randperm_NoDup sd n : NoDup (randperm sd n).
Proof. rewrite (randperm_perm sd n). apply NoDup_seq. Qed.

(** Cut down to [total_size], the shuffled indices are distinct items of
    the dataset. *)
Lemma padded_indices_drop s :
  ds_drop_last s = true ->
  NoDup (padded_indices s)
  /\ forall x, x ∈ padded_indices s -> (x < ds_len s)%nat.
Proof.
  intros Hd. unfold padded_indices. rewrite Hd. split.
  - pose proof (randperm_NoDup (ds_seed s + ds_epoch s) (ds_len s)) as Hnd.
    rewrite <- (take_drop (Z.to_nat (total_size s))) in Hnd.
    apply NoDup_app in Hnd. tauto.
  - intros x Hx. apply subseteq_take in Hx.
    rewrite (randperm_perm (ds_seed s + ds_epoch s) (ds_len s)) in Hx.
    apply elem_of_seq in Hx. lia.
Qed.

(** X10. In every epoch the training shards of two different workers of
    the group have no item in common, a shard holds no item twice, and every
    item of a shard is an index of the training set. *)
Theorem train_shards_disjoint (a : Args) (ws i j epoch : Z)
    (si sj : DistributedSampler) (dli dlj : DataLoader) :
  get_dataloader a Train i ws = inr (si, dli) ->
  get_dataloader a Train j ws = inr (sj, dlj) ->
  i <> j ->
  let shard_i := sampler_iter (set_epoch epoch si) in
  let shard_j := sampler_iter (set_epoch epoch sj) in
  (forall x, x ∈ shard_i -> x ∉ shard_j)
  /\ NoDup shard_i
  /\ (forall x, x ∈ shard_i -> (x < dataset_len Train)%nat).
Proof.
  intros Hi Hj Hne.
  destruct (get_dataloader_inv _ _ _ _ _ _ Hi) as (Hri & _ & -> & _ & _).
  destruct (get_dataloader_inv _ _ _ _ _ _ Hj) as (Hrj & _ & -> & _ & _).
  cbn zeta. unfold sampler_iter. cbn [set_epoch ds_rank num_replicas drop_last].
  set (mk := fun r => {| ds_len := dataset_len Train; num_replicas := ws; ds_rank := r;
                         ds_epoch := epoch; ds_seed := seed a; ds_drop_last := true |}).
  change (padded_indices (mk j)) with (padded_indices (mk i)).
  change (total_size (mk j)) with (total_size (mk i)).
  destruct (padded_indices_drop (mk i) eq_refl) as [Hnd Hidx].
  split; [|split].
  - intros x Hxi Hxj.
    apply py_slice_elem in Hxi, Hxj. destruct Hxi as [k Hk]. destruct Hxj as [k' Hk'].
    pose proof (NoDup_lookup _ _ _ _ Hnd Hk Hk') as Heq.
    apply (f_equal (fun p => p mod Z.to_nat ws)%nat) in Heq.
    rewrite !Nat.Div0.mod_add, !Nat.mod_small in Heq by lia. lia.
  - apply py_slice_NoDup; [exact Hnd|lia].
  - intros x Hx. apply py_slice_elem in Hx. destruct Hx as [k Hk].
    apply list_elem_of_lookup_2 in Hk. exact (Hidx x Hk).
Qed.

(** X11. The validation shards are padded to one size: every worker of
    the group gets [ceil(len / world_size)] validation samples and hence
    the same number of validation batches, so that all the workers make the
    same number of forward passes before the barrier of [validate]. *)
Theorem valid_shards_same_size (a : Args) (ws i j : Z)
    (si sj : DistributedSampler) (dli dlj : DataLoader) :
  get_dataloader a Valid i ws = inr (si, dli) ->
  get_dataloader a Valid j ws = inr (sj, dlj) ->
  length (sampler_iter si) = Z.to_nat (ceil_div (Z.of_nat (dataset_len Valid)) ws)
  /\ length (sampler_iter si) = length (sampler_iter sj)
  /\ length (loader_iter dli) = length (loader_iter dlj)
  /\ Z.of_nat (dataset_len Valid)
     <= ws * Z.of_nat (length (sampler_iter si))
     < Z.of_nat (dataset_len Valid) + ws.
Proof.
  intros Hi Hj.
  destruct (get_dataloader_inv _ _ _ _ _ _ Hi) as (Hri & _ & -> & -> & _).
  destruct (get_dataloader_inv _ _ _ _ _ _ Hj) as (Hrj & _ & -> & -> & _).
  assert (Hlen : forall r, 0 <= r < ws ->
    length (sampler_iter
              {| ds_len := dataset_len Valid; num_replicas := ws; ds_rank := r;
                 ds_epoch := 0; ds_seed := seed a; ds_drop_last := drop_last Valid |})
    = Z.to_nat (ceil_div (Z.of_nat (dataset_len Valid)) ws)).
  { intros r Hr. rewrite sampler_iter_length by (cbn; lia). reflexivity. }
  split; [apply Hlen; exact Hri|]. split; [rewrite !Hlen by assumption; reflexivity|].
  split.
  - unfold loader_iter. cbn [dl_sampler batch_size].
    apply batches_length. rewrite !Hlen by assumption. reflexivity.
  - rewrite (Hlen i Hri).
    pose proof (ceil_div_bounds (Z.of_nat (dataset_len Valid)) ws ltac:(lia)) as Hb.
    assert (0 <= ceil_div (Z.of_nat (dataset_len Valid)) ws) by nia.
    rewrite Z2Nat.id by assumption. lia.
Qed.
End ShardSeparation.

Section LoaderErrors.
Context {SO : ScoreOps} {CO : Collaborators}.


End LoaderErrors.

(** ** The further properties at work on the demo group *)

Lemma checkpoint_single_path_witness :
  files (validate_and_save should_stop_early (demo_worker 1) 1 1 2
                           (fun _ => []) empty_world).1.2
  = <["ckpt/gearnet_pt_best.pt"%string :=
        @Build_checkpoint Q_scores counting
          [("module.weight"%string, 0%nat)] 0%nat 1 demo_args]> (files empty_world).
Proof.
  apply (proj1 (checkpoint_single_path_four_fields (CO := counting))
           should_stop_early (demo_worker 1) 1 1 2 (fun _ => []) empty_world
           "ckpt/gearnet_pt_best.pt"%string
           (@Build_checkpoint Q_scores counting
              [("module.weight"%string, 0%nat)] 0%nat 1 demo_args)).
  apply (list_elem_of_lookup_2 _ 14%nat). reflexivity.
Defined.

Lemma trailing_group_not_flushed_witness :
  1 <= 4
  /\ Z.of_nat (count_events is_optimizer_step
                 (train_batches (CO := counting) 4 true false 0
                                [[0%nat]; [1%nat]; [2%nat]; [3%nat]; [4%nat]; [5%nat]]
                                0%nat).1)
     = 6 / 4.
Proof.
  split; [lia|].
  exact (proj1 (proj2 (trailing_group_not_flushed (CO := counting) 4 true false
                         [[0%nat]; [1%nat]; [2%nat]; [3%nat]; [4%nat]; [5%nat]]
                         0%nat ltac:(lia)))).
Defined.

Lemma epochs_of_a_run_witness :
  epochs_run (train (CO := counting) should_stop_early
                    (t_args (with_patience 0 (demo_worker 1))) false 1 2
                    (fun _ _ => []) empty_world).1.1
  = py_range 1 (3 + 1).
Proof.
  apply (proj1 (proj2 (epochs_of_a_run (CO := counting) should_stop_early
                         (t_args (with_patience 0 (demo_worker 1))) false 1 2
                         (fun _ _ => []) empty_world))).
  - reflexivity.
  - vm_compute. reflexivity.
Defined.

Lemma same_sync_points_witness :
  count_events is_sync_point
    (train (CO := counting) should_stop_early demo_args false 0 2
           (fun _ _ => []) empty_world).1.1
  = (5 * length (epochs_run
                   (train (CO := counting) should_stop_early demo_args false 0 2
                          (fun _ _ => []) empty_world).1.1))%nat.
Proof.
  apply (same_sync_points_every_epoch (CO := counting) should_stop_early demo_args
           false 0 2 (fun _ _ => []) empty_world).
  vm_compute. reflexivity.
Defined.

Lemma files_after_run_witness :
  files (train (CO := counting) should_stop_early demo_args false 1 2
               (fun _ _ => []) empty_world).1.2 !! "other.pt"%string = None.
Proof.
  rewrite (proj1 (proj2 (files_after_run (CO := counting) should_stop_early demo_args
                           false 1 2 (fun _ _ => []) empty_world))
             "other.pt"%string ltac:(discriminate)).
  reflexivity.
Defined.

Lemma non_coordinator_is_silent_witness :
  Forall (fun e => is_tracker e = false /\ is_summary e = false /\ is_save e = false)
         (train (CO := counting) should_stop_early demo_args false 0 2
                (fun _ _ => []) empty_world).1.1.
Proof.
  apply (proj1 (non_coordinator_is_silent (CO := counting) should_stop_early demo_args
                  false 0 2 (fun _ _ => []) empty_world)).
  lia.
Defined.

Lemma checkpoint_of_wrapped_model_witness :
  1 <= 1 <= n_epochs demo_args.
Proof.
  apply (checkpoint_of_wrapped_model (CO := counting) should_stop_early demo_args
           false 1 2 (fun _ _ => []) empty_world "ckpt/gearnet_pt_best.pt"%string
           (@Build_checkpoint Q_scores counting
              [("module.weight"%string, 0%nat)] 0%nat 1 demo_args)).
  apply (list_elem_of_lookup_2 _ 43%nat). reflexivity.
Defined.

Lemma zero_accumulation_aborts_witness :
  (train (CO := counting) should_stop_early
         {| exp_name := "gearnet"; save_dir := "ckpt"; save_prefix := "pt";
            seed := 2022; n_epochs := 3; train_bsz := 2; eval_bsz := 2;
            patience := 2; accumulation := 0; load_from_pretrained := false;
            world_size_arg := 2 |}
         false 1 2 (fun _ _ => []) empty_world).2 = ZeroDivisionError.
Proof.
  apply (zero_accumulation_aborts (CO := counting) should_stop_early
           {| exp_name := "gearnet"; save_dir := "ckpt"; save_prefix := "pt";
              seed := 2022; n_epochs := 3; train_bsz := 2; eval_bsz := 2;
              patience := 2; accumulation := 0; load_from_pretrained := false;
              world_size_arg := 2 |}
           false 1 2 (fun _ _ => []) empty_world).
  - reflexivity.
  - lia.
  - reflexivity.
  - reflexivity.
  - cbn. lia.
  - cbn. lia.
  - cbn. lia.
  - cbn. lia.
Defined.

Lemma empty_training_shard_witness :
  (train (CO := counting) should_stop_early demo_args false 3 11
         (fun _ _ => []) empty_world).2 <> ZeroDivisionError.
Proof.
  apply (empty_training_shard_trains_nothing (CO := counting) should_stop_early
           demo_args false 3 11 (fun _ _ => []) empty_world).
  cbn. lia.
Defined.

Lemma train_shards_disjoint_witness :
  NoDup (sampler_iter (H0 := counting)
           (set_epoch 1 {| ds_len := 10; num_replicas := 2; ds_rank := 0;
                           ds_epoch := 0; ds_seed := 2022; ds_drop_last := true |})).
Proof.
  apply (train_shards_disjoint (CO := counting) demo_args 2 0 1 1
           {| ds_len := 10; num_replicas := 2; ds_rank := 0;
              ds_epoch := 0; ds_seed := 2022; ds_drop_last := true |}
           {| ds_len := 10; num_replicas := 2; ds_rank := 1;
              ds_epoch := 0; ds_seed := 2022; ds_drop_last := true |}
           {| dl_sampler := {| ds_len := 10; num_replicas := 2; ds_rank := 0;
                               ds_epoch := 0; ds_seed := 2022; ds_drop_last := true |};
              batch_size := 2 |}
           {| dl_sampler := {| ds_len := 10; num_replicas := 2; ds_rank := 1;
                               ds_epoch := 0; ds_seed := 2022; ds_drop_last := true |};
              batch_size := 2 |}).
  - reflexivity.
  - reflexivity.
  - lia.
Defined.

Lemma valid_shards_same_size_witness :
  length (sampler_iter (H0 := counting)
            {| ds_len := 7; num_replicas := 2; ds_rank := 0;
               ds_epoch := 0; ds_seed := 2022; ds_drop_last := false |})
  = Z.to_nat (ceil_div 7 2).
Proof.
  apply (valid_shards_same_size (CO := counting) demo_args 2 0 1
           {| ds_len := 7; num_replicas := 2; ds_rank := 0;
              ds_epoch := 0; ds_seed := 2022; ds_drop_last := false |}
           {| ds_len := 7; num_replicas := 2; ds_rank := 1;
              ds_epoch := 0; ds_seed := 2022; ds_drop_last := false |}
           {| dl_sampler := {| ds_len := 7; num_replicas := 2; ds_rank := 0;
                               ds_epoch := 0; ds_seed := 2022; ds_drop_last := false |};
              batch_size := 2 |}
           {| dl_sampler := {| ds_len := 7; num_replicas := 2; ds_rank := 1;
                               ds_epoch := 0; ds_seed := 2022; ds_drop_last := false |};
              batch_size := 2 |}).
  - reflexivity.
  - reflexivity.
Defined.

